(** * logsAnalysis: role-coverage reconciliation scripts

    A shallow embedding of the Python scripts under [logsAnalysis/]
    (summary-log profile builders, completion classifier, day-8
    verifier, max-day aggregate and in-game log filter), followed by
    the properties established about them.

    Python [str] is [string], a [set] of strings is [gset string], a
    [dict] keyed by strings is [gmap string _], unbounded [int] is [Z].
    A [for row in reader] loop is a left fold of its body over the list
    of rows; [continue] returns the accumulator unchanged.  Each script
    is a [Module] named after its file. *)

From Stdlib Require Import ZArith Ascii String List Bool Lia.
From stdpp Require Import base decidable option list sorting gmap strings.

Local Open Scope string_scope.
Local Open Scope list_scope.

#[local] Set Warnings "-clear-no-such-hyp".

(** * Part I: the embedding *)

(** ** Python string primitives *)

Module PyStr.

(** [hay.startswith(p)]: the characters of [p] are the first ones of [hay]. *)
Fixpoint startswith (p hay : string) : bool :=
  match p with
  | EmptyString => true
  | String a p' =>
      match hay with
      | EmptyString => false
      | String b hay' => Ascii.eqb a b && startswith p' hay'
      end
  end.

(** [needle in hay] on [str]: [needle] starts at some position of [hay]. *)
Fixpoint contains (needle hay : string) : bool :=
  startswith needle hay
  || match hay with
     | EmptyString => false
     | String _ rest => contains needle rest
     end.

(** [not s] on [str]: true exactly for the empty string. *)
Definition is_empty (s : string) : bool :=
  match s with
  | EmptyString => true
  | String _ _ => false
  end.

(** [s.replace('Z', new)]: every occurrence of the one character. *)
Fixpoint replace_Z (new s : string) : string :=
  match s with
  | EmptyString => EmptyString
  | String c rest =>
      if Ascii.eqb c "Z" then new +:+ replace_Z new rest
      else String c (replace_Z new rest)
  end.

(** *** [int(s)] on short ASCII text

    The decimal reading of [int] on a [str] of ASCII characters with
    fewer digits than the interpreter's limit: surrounding white space
    (tab, line feed, vertical tab, form feed, carriage return, space)
    is dropped, one sign is allowed, then digits, where single
    underscores may separate digits.  [None] stands for [ValueError].
    It is applied to explicit short texts only (such as "8", "08",
    "-3", "seven"); the scan of analyze_max_day.py takes the built-in
    as a parameter, so that what is proved of it holds for every
    reading. *)

Definition is_space (c : ascii) : bool :=
  let n := nat_of_ascii c in
  (Nat.leb 9 n && Nat.leb n 13) || Nat.eqb n 32.

Definition digit_val (c : ascii) : option Z :=
  let n := nat_of_ascii c in
  if Nat.leb 48 n && Nat.leb n 57 then Some (Z.of_nat (n - 48)) else None.

Fixpoint lstrip (s : string) : string :=
  match s with
  | EmptyString => EmptyString
  | String c rest => if is_space c then lstrip rest else s
  end.

Fixpoint rstrip (s : string) : string :=
  match s with
  | EmptyString => EmptyString
  | String c rest =>
      let rest' := rstrip rest in
      if is_space c && is_empty rest' then EmptyString else String c rest'
  end.

Definition strip (s : string) : string := rstrip (lstrip s).

(** Digits with single underscores between them; [after_digit] tells
    whether the previous character was a digit. *)
Fixpoint digits (acc : Z) (after_digit : bool) (s : string) : option Z :=
  match s with
  | EmptyString => if after_digit then Some acc else None
  | String c rest =>
      if Ascii.eqb c "_" then
        if after_digit then digits acc false rest else None
      else
        match digit_val c with
        | Some d => digits (10 * acc + d)%Z true rest
        | None => None
        end
  end.

Definition int (s : string) : option Z :=
  match strip s with
  | String c rest =>
      if Ascii.eqb c "-" then Z.opp <$> digits 0 false rest
      else if Ascii.eqb c "+" then digits 0 false rest
      else digits 0 false (String c rest)
  | EmptyString => None
  end.

End PyStr.

(** ** Rows of the two logs

    A [csv.DictReader] row: the columns the scripts read by name, and
    the remaining columns, which are only carried along. *)

Record LogRow := mkRow {
  col_userId : string;
  col_role : string;
  col_day : string;
  col_timestamp : string;
  col_rest : list (string * string)
}.

(** ** Role classifier

    Each script that classifies labels carries the same
    [get_role_category]. *)

Definition get_role_category (role_str : string) : string :=
  if PyStr.contains "Athens" role_str then "Athens"
  else if PyStr.contains "North America" role_str then "North America"
  else if PyStr.contains "Mars Colony" role_str then "Mars Colony"
  else "Other".

(** The literal [{'yoav@tau.ac.il', 'yoni_levy@tau.ac.il'}] of the
    scripts that exclude the operator accounts. *)
Definition excluded_users : gset string :=
  {[ "yoav@tau.ac.il"; "yoni_levy@tau.ac.il" ]}.

(** [sorted(list(d.keys()))]: the keys in the order of [str]'s [<=]. *)
Definition str_le (a b : string) : Prop := String.leb a b = true.

Global Instance str_le_dec : RelDecision str_le :=
  λ a b, bool_eq_dec (String.leb a b) true.

Definition sorted_keys {V} (d : gmap string V) : list string :=
  merge_sort str_le (elements (dom d)).

(** [if uid not in d: d[uid] = set()] *)
Definition setdefault_empty (d : gmap string (gset string)) (uid : string)
  : gmap string (gset string) :=
  match d !! uid with
  | None => <[uid := ∅]> d
  | Some _ => d
  end.

(** [if uid not in d: d[uid] = set()] followed by [d[uid].add(role)] *)
Definition add_to_entry (d : gmap string (gset string)) (uid role : string)
  : gmap string (gset string) :=
  alter (λ roles, roles ∪ {[role]}) uid (setdefault_empty d uid).

(** ** analyze_users.py *)

Module analyze_users.

(** Body of the loop over the summary rows. *)
Definition read_row (users_roles : gmap string (gset string)) (row : LogRow)
  : gmap string (gset string) :=
  let user_id := col_userId row in
  let role_raw := col_role row in
  if PyStr.is_empty user_id then users_roles
  else
    let role := get_role_category role_raw in
    let users_roles :=
      match users_roles !! user_id with
      | None => <[user_id := ∅]> users_roles
      | Some _ => users_roles
      end in
    if bool_decide (role ≠ "Other")
    then alter (λ roles, roles ∪ {[role]}) user_id users_roles
    else users_roles.

Definition build_users_roles (rows : list LogRow) : gmap string (gset string) :=
  foldl read_row ∅ rows.

Record Counts := mkCounts {
  all_three : nat;
  only_athens : nat;
  athens_na_only : nat;
  na_or_mars_no_athens : nat
}.

(** Body of the loop over [unique_ids]: an [if/elif/elif] chain and then
    a separate [if]. *)
Definition count_user (c : Counts) (roles : gset string) : Counts :=
  let has_athens := bool_decide ("Athens" ∈ roles) in
  let has_na := bool_decide ("North America" ∈ roles) in
  let has_mars := bool_decide ("Mars Colony" ∈ roles) in
  let c :=
    if has_athens && has_na && has_mars then
      mkCounts (all_three c + 1) (only_athens c) (athens_na_only c)
               (na_or_mars_no_athens c)
    else if has_athens && Nat.eqb (size roles) 1 then
      mkCounts (all_three c) (only_athens c + 1) (athens_na_only c)
               (na_or_mars_no_athens c)
    else if has_athens && has_na && negb has_mars then
      mkCounts (all_three c) (only_athens c) (athens_na_only c + 1)
               (na_or_mars_no_athens c)
    else c in
  if (has_na || has_mars) && negb has_athens then
    mkCounts (all_three c) (only_athens c) (athens_na_only c)
             (na_or_mars_no_athens c + 1)
  else c.

(** The profile, the ids listed in the report, and the four counters. *)
Definition analyze_logs (rows : list LogRow)
  : gmap string (gset string) * list string * Counts :=
  let users_roles := build_users_roles rows in
  let unique_ids := sorted_keys users_roles in
  let counts :=
    foldl (λ c uid, count_user c (users_roles !!! uid))
          (mkCounts 0 0 0 0) unique_ids in
  (users_roles, unique_ids, counts).

End analyze_users.

(** ** analyze_users_debug.py *)

Module analyze_users_debug.

Definition read_row (users_roles : gmap string (gset string)) (row : LogRow)
  : gmap string (gset string) :=
  let user_id := col_userId row in
  let role_raw := col_role row in
  if PyStr.is_empty user_id then users_roles
  else if bool_decide (user_id ∈ ["yoav@tau.ac.il"; "yoni_levy@tau.ac.il"])
  then users_roles
  else
    let role := get_role_category role_raw in
    let users_roles :=
      match users_roles !! user_id with
      | None => <[user_id := ∅]> users_roles
      | Some _ => users_roles
      end in
    if bool_decide (role ≠ "Other")
    then alter (λ roles, roles ∪ {[role]}) user_id users_roles
    else users_roles.

Definition build_users_roles (rows : list LogRow) : gmap string (gset string) :=
  foldl read_row ∅ rows.

(** One constructor per counter of the classification loop, and
    [UNCLASSIFIED] for the report line printed when no branch fired. *)
Inductive Bucket :=
  | no_valid_roles
  | all_three
  | only_athens
  | athens_na_only
  | na_or_mars_no_athens
  | athens_mars_only
  | UNCLASSIFIED.

(** The conditions of the [if/elif] chain, in the order of the source,
    each with the counter its branch increments. *)
Definition branch_conditions (roles : gset string) : list (bool * Bucket) :=
  let has_athens := bool_decide ("Athens" ∈ roles) in
  let has_na := bool_decide ("North America" ∈ roles) in
  let has_mars := bool_decide ("Mars Colony" ∈ roles) in
  [ (Nat.eqb (size roles) 0, no_valid_roles);
    (has_athens && has_na && has_mars, all_three);
    (has_athens && Nat.eqb (size roles) 1, only_athens);
    (has_athens && has_na && negb has_mars, athens_na_only);
    ((has_na || has_mars) && negb has_athens, na_or_mars_no_athens);
    (has_athens && has_mars && negb has_na, athens_mars_only) ].

(** The chain itself: the first branch whose condition holds. *)
Definition classify (roles : gset string) : Bucket :=
  let has_athens := bool_decide ("Athens" ∈ roles) in
  let has_na := bool_decide ("North America" ∈ roles) in
  let has_mars := bool_decide ("Mars Colony" ∈ roles) in
  if Nat.eqb (size roles) 0 then no_valid_roles
  else if has_athens && has_na && has_mars then all_three
  else if has_athens && Nat.eqb (size roles) 1 then only_athens
  else if has_athens && has_na && negb has_mars then athens_na_only
  else if (has_na || has_mars) && negb has_athens then na_or_mars_no_athens
  else if has_athens && has_mars && negb has_na then athens_mars_only
  else UNCLASSIFIED.

(** The profile and the bucket of every listed user. *)
Definition analyze_logs (rows : list LogRow)
  : gmap string (gset string) * list (string * Bucket) :=
  let users_roles := build_users_roles rows in
  let unique_ids := sorted_keys users_roles in
  (users_roles, (λ uid, (uid, classify (users_roles !!! uid))) <$> unique_ids).

(** The six counters of the classification loop. *)
Record Counts := mkCounts {
  count_no_valid_roles : nat;
  count_all_three : nat;
  count_only_athens : nat;
  count_athens_na_only : nat;
  count_na_or_mars_no_athens : nat;
  count_athens_mars_only : nat
}.

(** Body of the classification loop: the branch of the chain that fires
    adds one to its counter; no counter moves for an unclassified user. *)
Definition count_user (c : Counts) (roles : gset string) : Counts :=
  match classify roles with
  | no_valid_roles =>
      mkCounts (count_no_valid_roles c + 1) (count_all_three c)
               (count_only_athens c) (count_athens_na_only c)
               (count_na_or_mars_no_athens c) (count_athens_mars_only c)
  | all_three =>
      mkCounts (count_no_valid_roles c) (count_all_three c + 1)
               (count_only_athens c) (count_athens_na_only c)
               (count_na_or_mars_no_athens c) (count_athens_mars_only c)
  | only_athens =>
      mkCounts (count_no_valid_roles c) (count_all_three c)
               (count_only_athens c + 1) (count_athens_na_only c)
               (count_na_or_mars_no_athens c) (count_athens_mars_only c)
  | athens_na_only =>
      mkCounts (count_no_valid_roles c) (count_all_three c)
               (count_only_athens c) (count_athens_na_only c + 1)
               (count_na_or_mars_no_athens c) (count_athens_mars_only c)
  | na_or_mars_no_athens =>
      mkCounts (count_no_valid_roles c) (count_all_three c)
               (count_only_athens c) (count_athens_na_only c)
               (count_na_or_mars_no_athens c + 1) (count_athens_mars_only c)
  | athens_mars_only =>
      mkCounts (count_no_valid_roles c) (count_all_three c)
               (count_only_athens c) (count_athens_na_only c)
               (count_na_or_mars_no_athens c) (count_athens_mars_only c + 1)
  | UNCLASSIFIED => c
  end.

(** The counters printed under "Updated Completion Statistics". *)
Definition count_users (rows : list LogRow) : Counts :=
  let users_roles := build_users_roles rows in
  let unique_ids := sorted_keys users_roles in
  foldl (λ c uid, count_user c (users_roles !!! uid))
        (mkCounts 0 0 0 0 0 0) unique_ids.

End analyze_users_debug.

(** ** analyze_day8_completion.py *)

Module analyze_day8_completion.

(** Body of the loop over the summary rows: an entry of [targets] is
    created only when the row's label is one of the three roles. *)
Definition read_summary_row (targets : gmap string (gset string)) (row : LogRow)
  : gmap string (gset string) :=
  let uid := col_userId row in
  if PyStr.is_empty uid || bool_decide (uid ∈ excluded_users) then targets
  else
    let role := get_role_category (col_role row) in
    if bool_decide (role ≠ "Other") then
      let targets :=
        match targets !! uid with
        | None => <[uid := ∅]> targets
        | Some _ => targets
        end in
      alter (λ roles, roles ∪ {[role]}) uid targets
    else targets.

Definition build_targets (summary_rows : list LogRow) : gmap string (gset string) :=
  foldl read_summary_row ∅ summary_rows.

(** [missing.add(x)] *)
Definition add (x : string) (missing : gset string) : gset string :=
  missing ∪ {[x]}.

(** The [missing] set computed for one entry of [targets]. *)
Definition missing_roles (roles : gset string) : gset string :=
  let missing : gset string := ∅ in
  if bool_decide ("Athens" ∈ roles) && bool_decide ("North America" ∉ roles)
     && bool_decide ("Mars Colony" ∉ roles)
  then add "Mars Colony" (add "North America" missing)
  else if bool_decide ("Athens" ∈ roles) && bool_decide ("North America" ∈ roles)
          && bool_decide ("Mars Colony" ∉ roles)
  then add "Mars Colony" missing
  else if bool_decide ("Athens" ∈ roles) && bool_decide ("North America" ∉ roles)
          && bool_decide ("Mars Colony" ∈ roles)
  then add "North America" missing
  else if bool_decide ("Athens" ∉ roles) then
    let missing := add "Athens" missing in
    let missing :=
      if bool_decide ("North America" ∉ roles)
      then add "North America" missing else missing in
    if bool_decide ("Mars Colony" ∉ roles)
    then add "Mars Colony" missing else missing
  else missing.

(** The loop over [targets.items()]: a user gets an entry of
    [users_to_check] exactly when its [missing] set is not empty.  The
    keys of a dict are distinct, so the loop is a key-wise map. *)
Definition build_users_to_check (targets : gmap string (gset string))
  : gmap string (gset string) :=
  omap (λ roles,
          let missing := missing_roles roles in
          if bool_decide (missing ≠ ∅) then Some missing else None)
       targets.

(** The [if/elif/elif] that picks [matched_target] for an in-game row. *)
Definition matched_target (target_roles : gset string) (role_val : string)
  : option string :=
  if PyStr.contains "Athens" role_val && bool_decide ("Athens" ∈ target_roles)
  then Some "Athens"
  else if PyStr.contains "North America" role_val
          && bool_decide ("North America" ∈ target_roles)
  then Some "North America"
  else if PyStr.contains "Mars Colony" role_val
          && bool_decide ("Mars Colony" ∈ target_roles)
  then Some "Mars Colony"
  else None.

(** Body of the loop over the in-game rows. *)
Definition scan_row (users_to_check : gmap string (gset string))
    (results : gmap string (gmap string bool)) (row : LogRow)
  : gmap string (gmap string bool) :=
  let uid := col_userId row in
  match users_to_check !! uid with
  | None => results
  | Some target_roles =>
      let role_val := col_role row in
      let day_val := col_day row in
      match matched_target target_roles role_val with
      | Some target =>
          if String.eqb day_val "8" then
            let results :=
              match results !! uid with
              | None => <[uid := ∅]> results
              | Some _ => results
              end in
            alter (λ by_role, <[target := true]> by_role) uid results
          else results
      | None => results
      end
  end.

Definition scan (users_to_check : gmap string (gset string))
    (ingame_rows : list LogRow) : gmap string (gmap string bool) :=
  foldl (scan_row users_to_check) ∅ ingame_rows.

(** [results.get(uid, {}).get(role, False)] *)
Definition is_verified (results : gmap string (gmap string bool))
    (uid role : string) : bool :=
  default false (default ∅ (results !! uid) !! role).

(** The two tables the report is printed from. *)
Definition analyze_day8_completion (summary_rows ingame_rows : list LogRow)
  : gmap string (gset string) * gmap string (gmap string bool) :=
  let targets := build_targets summary_rows in
  let users_to_check := build_users_to_check targets in
  (users_to_check, scan users_to_check ingame_rows).

(** The report: under each heading, the entries of [users_to_check]
    that pass the heading's test on the [missing] set. *)
Definition listed_athens_only (users_to_check : gmap string (gset string))
  : gmap string (gset string) :=
  filter (λ entry : string * gset string,
            "North America" ∈ entry.2 ∧ "Mars Colony" ∈ entry.2)
         users_to_check.

Definition listed_athens_na (users_to_check : gmap string (gset string))
  : gmap string (gset string) :=
  filter (λ entry : string * gset string,
            "Mars Colony" ∈ entry.2 ∧ ("North America" ∉ entry.2))
         users_to_check.

Definition listed_athens_mars (users_to_check : gmap string (gset string))
  : gmap string (gset string) :=
  filter (λ entry : string * gset string,
            "North America" ∈ entry.2 ∧ ("Mars Colony" ∉ entry.2))
         users_to_check.

Definition listed_no_athens (users_to_check : gmap string (gset string))
  : gmap string (gset string) :=
  filter (λ entry : string * gset string, "Athens" ∈ entry.2) users_to_check.

End analyze_day8_completion.

(** ** verify_discrepancy.py *)

Module verify_discrepancy.

(** Body of the loop over the summary rows; the classifier is written
    out in place. *)
Definition read_summary_row (users_summary_roles : gmap string (gset string))
    (row : LogRow) : gmap string (gset string) :=
  let uid := col_userId row in
  if PyStr.is_empty uid || bool_decide (uid ∈ excluded_users)
  then users_summary_roles
  else
    let r := col_role row in
    let role_type :=
      if PyStr.contains "Athens" r then "Athens"
      else if PyStr.contains "North America" r then "North America"
      else if PyStr.contains "Mars Colony" r then "Mars Colony"
      else "Other" in
    if bool_decide (role_type ≠ "Other") then
      let users_summary_roles :=
        match users_summary_roles !! uid with
        | None => <[uid := ∅]> users_summary_roles
        | Some _ => users_summary_roles
        end in
      alter (λ roles, roles ∪ {[role_type]}) uid users_summary_roles
    else users_summary_roles.

Definition build_users_summary_roles (summary_rows : list LogRow)
  : gmap string (gset string) :=
  foldl read_summary_row ∅ summary_rows.

(** The first loop over the in-game rows: the distinct non-empty labels. *)
Definition distinct_ingame_roles (ingame_rows : list LogRow) : gset string :=
  foldl (λ distinct row,
           let r := col_role row in
           if PyStr.is_empty r then distinct else distinct ∪ {[r]})
        ∅ ingame_rows.

(** The users whose summary profile has Athens and neither other role,
    collected from [items()] and then sorted. *)
Definition athens_only (users_summary_roles : gmap string (gset string))
  : list string :=
  merge_sort str_le
    (elements (dom (filter (λ entry : string * gset string,
                              "Athens" ∈ entry.2
                              ∧ ("North America" ∉ entry.2)
                              ∧ ("Mars Colony" ∉ entry.2))
                           users_summary_roles))).

(** Body of the second loop over the in-game rows: both markers are
    looked for, each with an [if] of its own. *)
Definition scan_row (athens_only : list string)
    (users_with_extra_logs : gmap string (gset string)) (row : LogRow)
  : gmap string (gset string) :=
  let uid := col_userId row in
  if bool_decide (uid ∈ athens_only) then
    let r := col_role row in
    let found : list string := [] in
    let found :=
      if PyStr.contains "North America" r
      then found ++ ["North America"] else found in
    let found :=
      if PyStr.contains "Mars Colony" r
      then found ++ ["Mars Colony"] else found in
    match found with
    | [] => users_with_extra_logs
    | _ :: _ =>
        foldl (λ d item, alter (λ roles, roles ∪ {[item]}) uid d)
              (setdefault_empty users_with_extra_logs uid) found
    end
  else users_with_extra_logs.

(** [users_with_extra_logs] as the report prints it. *)
Definition verify_all (summary_rows ingame_rows : list LogRow)
  : gmap string (gset string) :=
  let users_summary_roles := build_users_summary_roles summary_rows in
  foldl (scan_row (athens_only users_summary_roles)) ∅ ingame_rows.

End verify_discrepancy.

(** ** analyze_comprehensive_discrepancies.py *)

Module analyze_comprehensive_discrepancies.

Definition read_summary_row (users_summary_roles : gmap string (gset string))
    (row : LogRow) : gmap string (gset string) :=
  let uid := col_userId row in
  if PyStr.is_empty uid || bool_decide (uid ∈ excluded_users)
  then users_summary_roles
  else
    let role := get_role_category (col_role row) in
    if bool_decide (role ≠ "Other") then
      let users_summary_roles :=
        match users_summary_roles !! uid with
        | None => <[uid := ∅]> users_summary_roles
        | Some _ => users_summary_roles
        end in
      alter (λ roles, roles ∪ {[role]}) uid users_summary_roles
    else users_summary_roles.

Definition build_users_summary_roles (summary_rows : list LogRow)
  : gmap string (gset string) :=
  foldl read_summary_row ∅ summary_rows.

(** The three groups of users, decided entry by entry of the profile. *)
Inductive Group := athens_na_only | athens_mars_only | no_athens.

Global Instance Group_eq_dec : EqDecision Group.
Proof. solve_decision. Defined.

Definition group_of (roles : gset string) : option Group :=
  if bool_decide ("Athens" ∈ roles) then
    if bool_decide ("North America" ∈ roles)
       && bool_decide ("Mars Colony" ∉ roles)
    then Some athens_na_only
    else if bool_decide ("North America" ∉ roles)
            && bool_decide ("Mars Colony" ∈ roles)
    then Some athens_mars_only
    else None
  else
    if bool_decide ("North America" ∈ roles)
       || bool_decide ("Mars Colony" ∈ roles)
    then Some no_athens
    else None.

(** The set built for one group: the keys whose role set falls in it. *)
Definition users_in (g : Group) (users_summary_roles : gmap string (gset string))
  : gset string :=
  dom (filter (λ entry : string * gset string, group_of entry.2 = Some g)
              users_summary_roles).

(** The three dicts filled by the loop over the in-game rows. *)
Record Found := mkFound {
  found_mars_for_athens_na : gmap string (gset string);
  found_na_for_athens_mars : gmap string (gset string);
  found_roles_for_no_athens : gmap string (gset string)
}.

(** Body of the loop over the in-game rows: three tests in a row, the
    last with the first-match chain of the classifier. *)
Definition scan_row (users_summary_roles : gmap string (gset string))
    (found : Found) (row : LogRow) : Found :=
  let uid := col_userId row in
  if PyStr.is_empty uid then found
  else
    let role_val := col_role row in
    let found_mars :=
      if bool_decide (uid ∈ users_in athens_na_only users_summary_roles)
         && PyStr.contains "Mars Colony" role_val
      then add_to_entry (found_mars_for_athens_na found) uid "Mars Colony"
      else found_mars_for_athens_na found in
    let found_na :=
      if bool_decide (uid ∈ users_in athens_mars_only users_summary_roles)
         && PyStr.contains "North America" role_val
      then add_to_entry (found_na_for_athens_mars found) uid "North America"
      else found_na_for_athens_mars found in
    let found_roles :=
      if bool_decide (uid ∈ users_in no_athens users_summary_roles) then
        let found_role :=
          if PyStr.contains "Athens" role_val then Some "Athens"
          else if PyStr.contains "North America" role_val
          then Some "North America"
          else if PyStr.contains "Mars Colony" role_val
          then Some "Mars Colony"
          else None in
        match found_role with
        | Some role => add_to_entry (found_roles_for_no_athens found) uid role
        | None => found_roles_for_no_athens found
        end
      else found_roles_for_no_athens found in
    mkFound found_mars found_na found_roles.

Definition analyze_comprehensive_discrepancies
    (summary_rows ingame_rows : list LogRow) : Found :=
  let users_summary_roles := build_users_summary_roles summary_rows in
  foldl (scan_row users_summary_roles) (mkFound ∅ ∅ ∅) ingame_rows.

End analyze_comprehensive_discrepancies.

(** ** analyze_missing_summary.py *)

Module analyze_missing_summary.

Definition read_summary_row (users_summary_roles : gmap string (gset string))
    (row : LogRow) : gmap string (gset string) :=
  let user_id := col_userId row in
  if PyStr.is_empty user_id || bool_decide (user_id ∈ excluded_users)
  then users_summary_roles
  else
    let role := get_role_category (col_role row) in
    if bool_decide (role ≠ "Other") then
      let users_summary_roles :=
        match users_summary_roles !! user_id with
        | None => <[user_id := ∅]> users_summary_roles
        | Some _ => users_summary_roles
        end in
      alter (λ roles, roles ∪ {[role]}) user_id users_summary_roles
    else users_summary_roles.

Definition build_users_summary_roles (summary_rows : list LogRow)
  : gmap string (gset string) :=
  foldl read_summary_row ∅ summary_rows.

(** The users whose summary profile has Athens and neither other role. *)
Definition athens_only_users (users_summary_roles : gmap string (gset string))
  : gset string :=
  dom (filter (λ entry : string * gset string,
                 "Athens" ∈ entry.2
                 ∧ ("North America" ∉ entry.2)
                 ∧ ("Mars Colony" ∉ entry.2))
              users_summary_roles).

(** Body of the loop over the in-game rows: one [found_role] per row,
    North America first. *)
Definition scan_row (athens_only_users : gset string)
    (discrepancies : gmap string (gset string)) (row : LogRow)
  : gmap string (gset string) :=
  let user_id := col_userId row in
  if bool_decide (user_id ∉ athens_only_users) then discrepancies
  else
    let role_val := col_role row in
    let found_role :=
      if PyStr.contains "North America" role_val then Some "North America"
      else if PyStr.contains "Mars Colony" role_val then Some "Mars Colony"
      else None in
    match found_role with
    | Some role => add_to_entry discrepancies user_id role
    | None => discrepancies
    end.


End analyze_missing_summary.

(** ** analyze_max_day.py *)

Module analyze_max_day.

(** The three users under study, each with the role to look for. *)
Definition targets : gmap string string :=
  {[ "Mayajaqliner@mail.tau.ac.il" := "Mars Colony";
     "gal2@mail.tau.ac.il" := "Mars Colony";
     "noamronen2@mail.tau.ac.il" := "Mars Colony" ]}.

(** [{uid: 0 for uid in targets}] *)
Definition init_max_days (targets : gmap string string) : gmap string Z :=
  (λ _, 0%Z) <$> targets.

Section WithInt.

(** The built-in [int] is taken as given: a function from [str] to an
    integer, or [None] for the [ValueError] that the loop catches. *)
Variable int : string → option Z.

(** Body of the loop over the in-game rows.  [max_days] has the keys of
    [targets] throughout, so [max_days[uid]] reads a present key. *)
Definition read_row (targets : gmap string string) (max_days : gmap string Z)
    (row : LogRow) : gmap string Z :=
  let uid := col_userId row in
  match targets !! uid with
  | Some target_role =>
      let role_val := col_role row in
      let day_val := col_day row in
      if PyStr.contains target_role role_val then
        match int day_val with
        | Some day_int =>
            if (day_int >? max_days !!! uid)%Z
            then <[uid := day_int]> max_days
            else max_days
        | None => max_days
        end
      else max_days
  | None => max_days
  end.

Definition scan (targets : gmap string string) (ingame_rows : list LogRow)
  : gmap string Z :=
  foldl (read_row targets) (init_max_days targets) ingame_rows.

Definition analyze_max_day (ingame_rows : list LogRow) : gmap string Z :=
  scan targets ingame_rows.

End WithInt.

End analyze_max_day.

(** ** filter_ingame_logs.py *)

Module filter_ingame_logs.

(** Body of the loop of [get_valid_users] over the summary rows. *)
Definition read_summary_row (valid_users : gset string) (row : LogRow)
  : gset string :=
  let user_id := col_userId row in
  if PyStr.is_empty user_id then valid_users
  else if bool_decide (user_id ∈ excluded_users) then valid_users
  else valid_users ∪ {[user_id]}.

Definition get_valid_users (summary_rows : list LogRow) : gset string :=
  foldl read_summary_row ∅ summary_rows.

(** The accumulators of the loop over the in-game rows. *)
Record State {datetime : Type} := mkState {
  kept_rows : list LogRow;
  removed_count : nat;
  total_count : nat;
  min_ts : option datetime;
  max_ts : option datetime
}.
Arguments State : clear implicits.

(** The content of the log file, line by line. *)
Inductive CsvLine :=
  | HeaderLine (fieldnames : list string)
  | DataLine (row : LogRow).

(** What the overwrite does to the file, one effect at a time:
    [open(input_file, 'w')] empties it, [writeheader()] and each row of
    [writerows(kept_rows)] append a line. *)
Inductive WriteStep :=
  | OpenW
  | WriteHeader (fieldnames : list string)
  | WriteRow (row : LogRow).

Definition write_step (file : list CsvLine) (op : WriteStep) : list CsvLine :=
  match op with
  | OpenW => []
  | WriteHeader fieldnames => file ++ [HeaderLine fieldnames]
  | WriteRow row => file ++ [DataLine row]
  end.

Definition overwrite_steps (header : list string) (kept : list LogRow)
  : list WriteStep :=
  OpenW :: WriteHeader header :: (WriteRow <$> kept).

Definition run_steps (file : list CsvLine) (ops : list WriteStep) : list CsvLine :=
  foldl write_step file ops.

(** The file as it stands when the overwrite is cut short after its
    first [n] effects. *)
Definition interrupted_after (n : nat) (header : list string)
    (kept : list LogRow) (file : list CsvLine) : list CsvLine :=
  run_steps file (take n (overwrite_steps header kept)).

Section WithDatetime.

(** The [datetime] library is taken as given: [fromisoformat] answers
    [None] for [ValueError]; a comparison answers [None] for the
    [TypeError] of comparing a naive with an aware value, which the
    script does not catch. *)
Context {datetime : Type}.
Variable fromisoformat : string → option datetime.
Variable dt_lt : datetime → datetime → option bool.

(** The [try] block that tracks the date range:
    [if min_ts is None or ts < min_ts], then
    [if max_ts is None or ts > max_ts]. *)
Definition track (min_ts max_ts : option datetime) (ts_str : string)
  : option (option datetime * option datetime) :=
  match fromisoformat (PyStr.replace_Z "+00:00" ts_str) with
  | None => Some (min_ts, max_ts)
  | Some ts =>
      min_ts' ← match min_ts with
                 | None => Some (Some ts)
                 | Some m => b ← dt_lt ts m; Some (if b : bool then Some ts else Some m)
                 end;
      max_ts' ← match max_ts with
                 | None => Some (Some ts)
                 | Some m => b ← dt_lt m ts; Some (if b : bool then Some ts else Some m)
                 end;
      Some (min_ts', max_ts')
  end.

(** Body of the loop over the in-game rows; [None] is a run that ends
    in an uncaught exception. *)
Definition read_row (valid_users : gset string) (st : State datetime)
    (row : LogRow) : option (State datetime) :=
  let total_count := total_count st + 1 in
  let uid := col_userId row in
  if bool_decide (uid ∈ valid_users) then
    let kept_rows := kept_rows st ++ [row] in
    let ts_str := col_timestamp row in
    '(min_ts, max_ts) ← track (min_ts st) (max_ts st) ts_str;
    Some (mkState datetime kept_rows (removed_count st) total_count min_ts max_ts)
  else
    Some (mkState datetime (kept_rows st) (removed_count st + 1) total_count
                  (min_ts st) (max_ts st)).

Fixpoint read_rows (valid_users : gset string) (st : State datetime)
    (rows : list LogRow) : option (State datetime) :=
  match rows with
  | [] => Some st
  | row :: rows =>
      st' ← read_row valid_users st row;
      read_rows valid_users st' rows
  end.

Definition init : State datetime := mkState datetime [] 0 0 None None.

(** The whole script: the valid users from the summary rows, one pass
    over the in-game rows, then the overwrite of the file that held
    them.  The result is the final accumulators and the file. *)
Definition filter_ingame_logs (summary_rows : list LogRow)
    (header : list string) (ingame_rows : list LogRow)
  : option (State datetime * list CsvLine) :=
  let valid_users := get_valid_users summary_rows in
  st ← read_rows valid_users init ingame_rows;
  Some (st, run_steps (HeaderLine header :: (DataLine <$> ingame_rows))
                      (overwrite_steps header (kept_rows st))).

End WithDatetime.

End filter_ingame_logs.

(** ** Notions used to state the properties *)

(** The three roles of the study. *)
Definition three_roles : gset string :=
  {[ "Athens"; "North America"; "Mars Colony" ]}.

(** The user has at least one row in the log. *)
Definition seen (uid : string) (rows : list LogRow) : Prop :=
  Exists (λ row, col_userId row = uid) rows.

(** The categories other than "Other" among the labels of the user's rows. *)
Definition roles_seen (rows : list LogRow) (uid : string) : gset string :=
  list_to_set
    (filter (λ category, category ≠ "Other")
            ((λ row, get_role_category (col_role row))
               <$> filter (λ row, col_userId row = uid) rows)).

(** [d.get(uid, set())]: the set stored for the user, empty when the
    user has no entry. *)
Definition get_set (d : gmap string (gset string)) (uid : string) : gset string :=
  default ∅ (d !! uid).

(** [category] is the first of Athens, North America, Mars Colony that
    is both expected for the user and a substring of the label. *)
Definition first_expected_marker (expected : gset string) (label : string)
    (category : string) : Prop :=
  ∃ earlier later,
    ["Athens"; "North America"; "Mars Colony"] = earlier ++ category :: later
    ∧ category ∈ expected
    ∧ PyStr.contains category label = true
    ∧ ∀ c, c ∈ earlier → ¬ (c ∈ expected ∧ PyStr.contains c label = true).

(** Some row of the user has a label containing [marker] and a day
    field that [int] reads as the integer [d]. *)
Definition matching_day (int : string → option Z) (rows : list LogRow)
    (uid marker : string) (d : Z) : Prop :=
  ∃ row, row ∈ rows ∧ col_userId row = uid
         ∧ PyStr.contains marker (col_role row) = true
         ∧ int (col_day row) = Some d.

(** What a summary row adds to the role set of its user. *)
Definition contribution (row : LogRow) : gset string :=
  if decide (get_role_category (col_role row) ≠ "Other")
  then {[ get_role_category (col_role row) ]} else ∅.

(** The user has at least one row that passes the test [Q]. *)
Definition counted (Q : LogRow → Prop) (uid : string) (rows : list LogRow)
  : Prop :=
  Exists (λ row, col_userId row = uid ∧ Q row) rows.

(** The row marks [(uid, c)] as verified. *)
Definition marks (users_to_check : gmap string (gset string)) (row : LogRow)
    (uid c : string) : Prop :=
  col_userId row = uid ∧ col_day row = "8"
  ∧ ∃ target_roles, users_to_check !! uid = Some target_roles
      ∧ analyze_day8_completion.matched_target target_roles (col_role row) = Some c.

(** The six counters of analyze_users_debug.py, added up. *)
Definition debug_total (c : analyze_users_debug.Counts) : nat :=
  analyze_users_debug.count_no_valid_roles c
  + analyze_users_debug.count_all_three c
  + analyze_users_debug.count_only_athens c
  + analyze_users_debug.count_athens_na_only c
  + analyze_users_debug.count_na_or_mars_no_athens c
  + analyze_users_debug.count_athens_mars_only c.

(** The four counters of analyze_users.py, added up. *)
Definition users_total (c : analyze_users.Counts) : nat :=
  analyze_users.all_three c + analyze_users.only_athens c
  + analyze_users.athens_na_only c + analyze_users.na_or_mars_no_athens c.

(** Every entry of [results] is a non-empty table of marks for a
    checked user, over roles of that user's expected set. *)
Definition results_wf (users_to_check : gmap string (gset string))
    (results : gmap string (gmap string bool)) : Prop :=
  ∀ uid by_role, results !! uid = Some by_role →
    by_role ≠ ∅
    ∧ ∃ target_roles, users_to_check !! uid = Some target_roles
        ∧ ∀ c b, by_role !! c = Some b → b = true ∧ c ∈ target_roles.

(** The timestamps of the retained rows that [fromisoformat] reads,
    every Z replaced by +00:00, in the order of the rows. *)
Definition parsed_timestamps {datetime : Type}
    (fromisoformat : string → option datetime) (valid_users : gset string)
    (rows : list LogRow) : list datetime :=
  omap (λ row, fromisoformat (PyStr.replace_Z "+00:00" (col_timestamp row)))
       (filter (λ row, col_userId row ∈ valid_users) rows).

(** [mn] and [mx] are the ends of the timestamps [ts]: both undetermined
    when there is none, else members with none below [mn], none above
    [mx]. *)
Definition range_of {datetime : Type} (lt : datetime → datetime → bool)
    (ts : list datetime) (mn mx : option datetime) : Prop :=
  (mn = None ↔ ts = [])
  ∧ (mx = None ↔ ts = [])
  ∧ (∀ m, mn = Some m → m ∈ ts ∧ ∀ t, t ∈ ts → lt t m = false)
  ∧ (∀ m, mx = Some m → m ∈ ts ∧ ∀ t, t ∈ ts → lt m t = false).

(** The rows a [csv.DictReader] gets from the file: its data lines. *)
Definition rows_of_file (file : list filter_ingame_logs.CsvLine) : list LogRow :=
  omap (λ line, match line with
                | filter_ingame_logs.DataLine row => Some row
                | filter_ingame_logs.HeaderLine _ => None
                end) file.

(** * Part II: properties *)

(** ** Strings *)

Lemma is_empty_true s : PyStr.is_empty s = true <-> s = "".
Proof. destruct s; simpl; split; congruence. Qed.

Lemma is_empty_false s : PyStr.is_empty s = false <-> s ≠ "".
Proof. destruct s; simpl; split; congruence. Qed.

Lemma startswith_app (p s : string) :
  PyStr.startswith p s = true <-> exists post, s = p +:+ post.
Proof.
  revert s. induction p as [|a p IH]; intros s; simpl.
  - split; [intros _; exists s; reflexivity | reflexivity].
  - destruct s as [|b s].
    + split; [discriminate | intros [post H]; discriminate].
    + rewrite andb_true_iff, Ascii.eqb_eq, IH. split.
      * intros [-> [post ->]]. by exists post.
      * intros [post H]. injection H as -> ->. eauto.
Qed.

(** [contains] decides the usual notion of substring. *)
Lemma contains_spec (needle hay : string) :
  PyStr.contains needle hay = true
  <-> exists pre post, hay = pre +:+ needle +:+ post.
Proof.
  induction hay as [|c hay IH]; simpl.
  - rewrite orb_false_r, startswith_app. split.
    + intros [post H]. exists "", post. exact H.
    + intros [[|a pre] [post H]]; simpl in H; [eauto | discriminate].
  - rewrite orb_true_iff, IH, startswith_app. split.
    + intros [[post H] | (pre & post & H)].
      * exists "", post. exact H.
      * exists (String c pre), post. simpl. by rewrite H.
    + intros ([|a pre] & post & H); simpl in H.
      * left. eauto.
      * right. injection H as _ H. eauto.
Qed.

(** ** Role classifier *)

Lemma get_role_category_cases label :
  get_role_category label ∈ ["Athens"; "North America"; "Mars Colony"; "Other"].
Proof.
  unfold get_role_category.
  repeat case_match; set_solver.
Qed.

Lemma get_role_category_not_other label :
  get_role_category label ≠ "Other" →
  get_role_category label ∈ (({[ "Athens"; "North America"; "Mars Colony" ]}) : gset string).
Proof.
  unfold get_role_category.
  repeat case_match; set_solver.
Qed.

(** C8: [get_role_category] is a total function of the label with
    first-match-wins priority Athens, North America, Mars Colony, Other.
    Every label that has "Athens" as a substring is classified "Athens"
    whatever else it contains; "North America" is returned exactly when
    that marker is present and "Athens" is not; "Mars Colony" exactly
    when it is present and neither earlier marker is; "Other" exactly
    when no marker is present.  In particular the label
    "Athens Mars Colony trip", which also contains "Mars Colony", is
    classified "Athens" and not "Mars Colony". *)
Theorem get_role_category_priority :
  (forall pre post : string,
      get_role_category (pre +:+ "Athens" +:+ post) = "Athens")
  /\ (forall label : string,
        (get_role_category label = "Athens"
           <-> PyStr.contains "Athens" label = true)
        /\ (get_role_category label = "North America"
           <-> PyStr.contains "Athens" label = false
               /\ PyStr.contains "North America" label = true)
        /\ (get_role_category label = "Mars Colony"
           <-> PyStr.contains "Athens" label = false
               /\ PyStr.contains "North America" label = false
               /\ PyStr.contains "Mars Colony" label = true)
        /\ (get_role_category label = "Other"
           <-> PyStr.contains "Athens" label = false
               /\ PyStr.contains "North America" label = false
               /\ PyStr.contains "Mars Colony" label = false))
  /\ get_role_category "Athens Mars Colony trip" = "Athens"
  /\ get_role_category "Athens Mars Colony trip" <> "Mars Colony"
  /\ PyStr.contains "Mars Colony" "Athens Mars Colony trip" = true.
Proof.
  split; [|split; [|by vm_compute]].
  - intros pre post. unfold get_role_category.
    assert (PyStr.contains "Athens" (pre +:+ "Athens" +:+ post) = true) as ->;
      [|reflexivity].
    apply contains_spec. by exists pre, post.
  - intros label. unfold get_role_category.
    destruct (PyStr.contains "Athens" label),
             (PyStr.contains "North America" label),
             (PyStr.contains "Mars Colony" label);
      repeat split; intros; try discriminate; try tauto;
      repeat match goal with H : _ /\ _ |- _ => destruct H end;
      try discriminate.
Qed.

(** ** Completion classifier of analyze_users_debug.py *)

(** The role sets over the three roles are the eight obvious ones. *)
Lemma role_subsets (roles : gset string) :
  roles ⊆ {[ "Athens"; "North America"; "Mars Colony" ]} →
  roles ∈ [ (∅ : gset string);
            {[ "Athens" ]}; {[ "North America" ]}; {[ "Mars Colony" ]};
            {[ "Athens"; "North America" ]}; {[ "Athens"; "Mars Colony" ]};
            {[ "North America"; "Mars Colony" ]};
            {[ "Athens"; "North America"; "Mars Colony" ]} ].
Proof.
  intros Hsub.
  destruct (decide ("Athens" ∈ roles)) as [Ha|Ha],
           (decide ("North America" ∈ roles)) as [Hn|Hn],
           (decide ("Mars Colony" ∈ roles)) as [Hm|Hm].
  all: repeat rewrite elem_of_cons.
  - do 7 right. left. set_solver.
  - do 4 right. left. set_solver.
  - do 5 right. left. set_solver.
  - do 1 right. left. set_solver.
  - do 6 right. left. set_solver.
  - do 2 right. left. set_solver.
  - do 3 right. left. set_solver.
  - left. set_solver.
Qed.

(** C1: for every role set over {Athens, North America, Mars Colony},
    exactly one condition of the classification chain of
    analyze_users_debug holds, the chain returns the bucket of that
    branch, the bucket is one of the six counters
    (all_three = AllThree, only_athens = AthensOnly,
    athens_na_only = AthensAndNA, athens_mars_only = AthensAndMars,
    na_or_mars_no_athens = NoAthensButOther,
    no_valid_roles = NoValidRoles), and the UNCLASSIFIED fallback is
    not reached. *)
Theorem classify_exactly_one_bucket (roles : gset string) :
  roles ⊆ {[ "Athens"; "North America"; "Mars Colony" ]} →
  (∃ bucket,
      filter (λ branch, branch.1 = true)
             (analyze_users_debug.branch_conditions roles) = [(true, bucket)]
      ∧ analyze_users_debug.classify roles = bucket)
  ∧ analyze_users_debug.classify roles ≠ analyze_users_debug.UNCLASSIFIED
  ∧ analyze_users_debug.classify roles
      ∈ [ analyze_users_debug.all_three; analyze_users_debug.only_athens;
          analyze_users_debug.athens_na_only;
          analyze_users_debug.athens_mars_only;
          analyze_users_debug.na_or_mars_no_athens;
          analyze_users_debug.no_valid_roles ].
Proof.
  intros Hsub. apply role_subsets in Hsub.
  repeat (apply elem_of_cons in Hsub as [->|Hsub]);
    [.. | by apply elem_of_nil in Hsub].
  all: split; [eexists; split; vm_compute; reflexivity|].
  all: split; [by vm_compute|].
  all: vm_compute; repeat (first [apply list_elem_of_here | apply list_elem_of_further]).
Qed.

(** C1 at the role set {Athens, Mars Colony}. *)
Lemma classify_exactly_one_bucket_witness :
  ({[ "Athens"; "Mars Colony" ]} : gset string)
    ⊆ {[ "Athens"; "North America"; "Mars Colony" ]}
  ∧ analyze_users_debug.classify {[ "Athens"; "Mars Colony" ]}
    = analyze_users_debug.athens_mars_only.
Proof.
  assert (({[ "Athens"; "Mars Colony" ]} : gset string)
            ⊆ {[ "Athens"; "North America"; "Mars Colony" ]}) as Hsub
    by set_solver.
  split; [exact Hsub|].
  destruct (classify_exactly_one_bucket _ Hsub) as [(bucket & Hf & Hc) _].
  rewrite Hc. vm_compute in Hf. congruence.
Defined.

(** ** Profile builders *)

Lemma seen_snoc uid rows row :
  seen uid (rows ++ [row]) ↔ seen uid rows ∨ col_userId row = uid.
Proof.
  unfold seen. rewrite Exists_app, Exists_cons, Exists_nil. tauto.
Qed.

Lemma seen_elem_of uid rows :
  seen uid rows ↔ ∃ row, row ∈ rows ∧ col_userId row = uid.
Proof. unfold seen. apply Exists_exists. Qed.

Lemma roles_seen_snoc rows row uid :
  roles_seen (rows ++ [row]) uid
  = roles_seen rows uid
    ∪ (if decide (col_userId row = uid
                  ∧ get_role_category (col_role row) ≠ "Other")
       then {[ get_role_category (col_role row) ]} else ∅).
Proof.
  unfold roles_seen.
  rewrite filter_app, fmap_app, filter_app, list_to_set_app_L.
  f_equal.
  rewrite filter_cons, filter_nil.
  destruct (decide (col_userId row = uid)) as [Hu|Hu]; simpl.
  - rewrite filter_cons, filter_nil.
    destruct (decide (get_role_category (col_role row) ≠ "Other")); simpl.
    + rewrite decide_True by done. set_solver.
    + rewrite decide_False by tauto. done.
  - rewrite decide_False by tauto. done.
Qed.

Lemma elem_of_roles_seen rows uid c :
  c ∈ roles_seen rows uid
  ↔ c ≠ "Other"
    ∧ ∃ row, row ∈ rows ∧ col_userId row = uid
             ∧ get_role_category (col_role row) = c.
Proof.
  unfold roles_seen.
  rewrite elem_of_list_to_set, list_elem_of_filter, list_elem_of_fmap.
  split.
  - intros [Hne (row & -> & Hin)].
    apply list_elem_of_filter in Hin as [Hu Hin]. eauto.
  - intros [Hne (row & Hin & Hu & <-)]. split; [done|].
    exists row. split; [done|]. by apply list_elem_of_filter.
Qed.

Lemma roles_seen_subseteq rows uid : roles_seen rows uid ⊆ three_roles.
Proof.
  intros c. rewrite elem_of_roles_seen.
  intros [Hne (row & _ & _ & <-)].
  by apply get_role_category_not_other.
Qed.

Lemma roles_seen_empty rows uid :
  roles_seen rows uid = ∅
  ↔ ∀ row, row ∈ rows → col_userId row = uid →
           get_role_category (col_role row) = "Other".
Proof.
  split.
  - intros Hempty row Hin Hu.
    destruct (decide (get_role_category (col_role row) = "Other")) as [|Hne];
      [done|].
    assert (get_role_category (col_role row) ∈ roles_seen rows uid) as Habs
      by (apply elem_of_roles_seen; eauto).
    rewrite Hempty in Habs. by apply not_elem_of_empty in Habs.
  - intros Hall. apply set_eq. intros c.
    rewrite elem_of_roles_seen. split.
    + intros [Hne (row & Hin & Hu & <-)]. exfalso. by apply Hne, Hall.
    + intros Habs. by apply not_elem_of_empty in Habs.
Qed.

(** The entry stored by [if uid not in d: d[uid] = set()] followed by
    [d[uid].add(role)]. *)
Lemma lookup_add_role (d : gmap string (gset string)) uid role :
  alter (λ roles, roles ∪ {[role]}) uid
        (match d !! uid with None => <[uid := ∅]> d | Some _ => d end) !! uid
  = Some (get_set d uid ∪ {[role]}).
Proof.
  unfold get_set. rewrite lookup_alter_eq.
  destruct (d !! uid) as [roles|] eqn:Hd; simpl.
  - by rewrite Hd.
  - by rewrite lookup_insert_eq.
Qed.

Lemma lookup_add_role_ne (d : gmap string (gset string)) uid uid' role :
  uid ≠ uid' →
  alter (λ roles, roles ∪ {[role]}) uid
        (match d !! uid with None => <[uid := ∅]> d | Some _ => d end) !! uid'
  = d !! uid'.
Proof.
  intros Hne. rewrite lookup_alter_ne by done.
  destruct (d !! uid); [done|]. by rewrite lookup_insert_ne.
Qed.

Lemma lookup_setdefault (d : gmap string (gset string)) uid :
  (match d !! uid with None => <[uid := ∅]> d | Some _ => d end) !! uid
  = Some (get_set d uid).
Proof.
  unfold get_set. destruct (d !! uid) as [roles|] eqn:Hd; simpl.
  - done.
  - by rewrite lookup_insert_eq.
Qed.

Lemma lookup_setdefault_ne (d : gmap string (gset string)) uid uid' :
  uid ≠ uid' →
  (match d !! uid with None => <[uid := ∅]> d | Some _ => d end) !! uid'
  = d !! uid'.
Proof.
  intros Hne. destruct (d !! uid); [done|]. by rewrite lookup_insert_ne.
Qed.

(** *** The common shape of the profile loops

    Every profile loop updates the entry of the row's user when the
    user passes a test [P] and the row passes a test [Q], and leaves the
    dict alone otherwise; a row that fails [Q] carries no role. *)

Section ProfileLoop.

Variable step : gmap string (gset string) → LogRow → gmap string (gset string).
Variable P : string → Prop.
Variable Q : LogRow → Prop.
Context `{∀ uid, Decision (P uid)} `{∀ row, Decision (Q row)}.

Hypothesis step_lookup : ∀ d row uid,
  step d row !! uid
  = if decide (col_userId row = uid ∧ P uid ∧ Q row)
    then Some (get_set d uid ∪ contribution row)
    else d !! uid.

Hypothesis Q_other : ∀ row,
  ¬ Q row → get_role_category (col_role row) = "Other".

Lemma roles_seen_snoc_contribution rows row uid :
  roles_seen (rows ++ [row]) uid
  = roles_seen rows uid
    ∪ (if decide (col_userId row = uid) then contribution row else ∅).
Proof.
  rewrite roles_seen_snoc. f_equal. unfold contribution.
  repeat case_decide; tauto || done.
Qed.

Lemma profile_loop_lookup rows uid roles :
  foldl step ∅ rows !! uid = Some roles
  ↔ P uid ∧ counted Q uid rows ∧ roles = roles_seen rows uid.
Proof.
  revert roles. induction rows as [|row rows IH] using rev_ind; intros roles.
  - simpl. rewrite lookup_empty. unfold counted. rewrite Exists_nil.
    split; [done | tauto].
  - rewrite foldl_app. simpl. rewrite step_lookup.
    rewrite roles_seen_snoc_contribution.
    unfold counted. rewrite Exists_app, Exists_cons, Exists_nil.
    fold (counted Q uid rows).
    destruct (decide (col_userId row = uid ∧ P uid ∧ Q row))
      as [(Hu & HP & HQ)|Hn].
    + assert (get_set (foldl step ∅ rows) uid = roles_seen rows uid) as ->.
      { unfold get_set.
        destruct (decide (counted Q uid rows)) as [Hs|Hs].
        - by rewrite (proj2 (IH (roles_seen rows uid))).
        - assert (foldl step ∅ rows !! uid = None) as ->.
          { apply eq_None_not_Some. intros [old Hold].
            apply IH in Hold as (_ & ? & _). done. }
          simpl. symmetry. apply roles_seen_empty.
          intros r Hin Hr.
          destruct (decide (Q r)) as [Hq|Hq]; [|by apply Q_other].
          exfalso. apply Hs, Exists_exists. eauto. }
      rewrite decide_True by done.
      split.
      * intros [= <-]. tauto.
      * intros (_ & _ & ->). done.
    + rewrite IH.
      assert (P uid →
              (if decide (col_userId row = uid) then contribution row else ∅)
              = ∅) as Hnone.
      { intros HP. case_decide as Hu; [|done].
        unfold contribution. case_decide as Hc; [|done].
        destruct (decide (Q row)) as [Hq|Hq]; [tauto|].
        by apply Q_other in Hq. }
      split.
      * intros (HP & Hs & ->). rewrite Hnone by done.
        rewrite union_empty_r_L. tauto.
      * intros (HP & Hs & ->). rewrite Hnone by done.
        rewrite union_empty_r_L. tauto.
Qed.

Lemma profile_loop_subseteq rows uid roles :
  foldl step ∅ rows !! uid = Some roles → roles ⊆ three_roles.
Proof.
  intros (_ & _ & ->)%profile_loop_lookup. apply roles_seen_subseteq.
Qed.

End ProfileLoop.

(** *** analyze_users.py: every non-empty id gets an entry *)

Lemma analyze_users_read_row_lookup d row uid :
  analyze_users.read_row d row !! uid
  = if decide (col_userId row = uid ∧ uid ≠ "" ∧ True)
    then Some (get_set d uid ∪ contribution row)
    else d !! uid.
Proof.
  unfold analyze_users.read_row, contribution.
  destruct (PyStr.is_empty (col_userId row)) eqn:He.
  - apply is_empty_true in He. rewrite decide_False; [done|].
    intros (Hu & Hn & _). congruence.
  - apply is_empty_false in He.
    destruct (decide (col_userId row = uid)) as [<-|Hne].
    + rewrite decide_True by done.
      case_bool_decide as Hc; case_decide; try done.
      * apply lookup_add_role.
      * rewrite lookup_setdefault. f_equal. set_solver.
    + rewrite decide_False by tauto.
      case_bool_decide.
      * by apply lookup_add_role_ne.
      * by apply lookup_setdefault_ne.
Qed.

Lemma analyze_users_profile rows uid roles :
  analyze_users.build_users_roles rows !! uid = Some roles
  ↔ uid ≠ "" ∧ seen uid rows ∧ roles = roles_seen rows uid.
Proof.
  unfold analyze_users.build_users_roles.
  rewrite (profile_loop_lookup analyze_users.read_row (λ uid, uid ≠ "")
             (λ _, True) analyze_users_read_row_lookup); [|tauto].
  unfold counted, seen. rewrite !Exists_exists. naive_solver.
Qed.

(** *** analyze_users_debug.py: every non-empty, non-excluded id gets an entry *)

Lemma elem_of_excluded_list uid :
  uid ∈ ["yoav@tau.ac.il"; "yoni_levy@tau.ac.il"] ↔ uid ∈ excluded_users.
Proof. unfold excluded_users. set_solver. Qed.

Lemma analyze_users_debug_read_row_lookup d row uid :
  analyze_users_debug.read_row d row !! uid
  = if decide (col_userId row = uid ∧ (uid ≠ "" ∧ uid ∉ excluded_users) ∧ True)
    then Some (get_set d uid ∪ contribution row)
    else d !! uid.
Proof.
  unfold analyze_users_debug.read_row, contribution.
  destruct (PyStr.is_empty (col_userId row)) eqn:He.
  { apply is_empty_true in He. rewrite decide_False; [done|].
    intros (Hu & [Hn _] & _). congruence. }
  apply is_empty_false in He.
  case_bool_decide as Hex.
  { apply elem_of_excluded_list in Hex. rewrite decide_False; [done|].
    intros (Hu & [_ Hn] & _). congruence. }
  rewrite elem_of_excluded_list in Hex.
  destruct (decide (col_userId row = uid)) as [<-|Hne].
  - rewrite decide_True by done.
    case_bool_decide as Hc; case_decide; try done.
    + apply lookup_add_role.
    + rewrite lookup_setdefault. f_equal. set_solver.
  - rewrite decide_False by tauto.
    case_bool_decide.
    + by apply lookup_add_role_ne.
    + by apply lookup_setdefault_ne.
Qed.

Lemma analyze_users_debug_profile rows uid roles :
  analyze_users_debug.build_users_roles rows !! uid = Some roles
  ↔ (uid ≠ "" ∧ uid ∉ excluded_users) ∧ seen uid rows
    ∧ roles = roles_seen rows uid.
Proof.
  unfold analyze_users_debug.build_users_roles.
  rewrite (profile_loop_lookup analyze_users_debug.read_row
             (λ uid, uid ≠ "" ∧ uid ∉ excluded_users)
             (λ _, True) analyze_users_debug_read_row_lookup); [|tauto].
  unfold counted, seen. rewrite !Exists_exists. naive_solver.
Qed.

(** *** The verification scripts: an entry only from the first role on *)

Lemma day8_read_summary_row_lookup d row uid :
  analyze_day8_completion.read_summary_row d row !! uid
  = if decide (col_userId row = uid
               ∧ (uid ≠ "" ∧ uid ∉ excluded_users)
               ∧ get_role_category (col_role row) ≠ "Other")
    then Some (get_set d uid ∪ contribution row)
    else d !! uid.
Proof.
  unfold analyze_day8_completion.read_summary_row, contribution.
  destruct (PyStr.is_empty (col_userId row)) eqn:He; simpl.
  { apply is_empty_true in He. rewrite decide_False; [done|].
    intros (Hu & [Hn _] & _). congruence. }
  apply is_empty_false in He.
  case_bool_decide as Hex.
  { rewrite decide_False; [done|].
    intros (Hu & [_ Hn] & _). congruence. }
  case_bool_decide as Hc.
  - destruct (decide (col_userId row = uid)) as [<-|Hne].
    + rewrite decide_True by done. rewrite decide_True by done.
      apply lookup_add_role.
    + rewrite decide_False by tauto. by apply lookup_add_role_ne.
  - rewrite decide_False by tauto. done.
Qed.

Lemma counted_roles_seen rows uid :
  counted (λ row, get_role_category (col_role row) ≠ "Other") uid rows
  ↔ roles_seen rows uid ≠ ∅.
Proof.
  unfold counted. rewrite Exists_exists, roles_seen_empty. split.
  - intros (row & Hin & Hu & Hc) Hall. by apply Hc, Hall.
  - intros Hne.
    destruct (decide (Exists (λ row, col_userId row = uid
                  ∧ get_role_category (col_role row) ≠ "Other") rows))
      as [Hex|Hex]; [by apply Exists_exists in Hex|].
    exfalso. apply Hne. intros row Hin Hu.
    destruct (decide (get_role_category (col_role row) = "Other")); [done|].
    exfalso. apply Hex, Exists_exists. eauto.
Qed.

Lemma day8_targets rows uid roles :
  analyze_day8_completion.build_targets rows !! uid = Some roles
  ↔ (uid ≠ "" ∧ uid ∉ excluded_users) ∧ roles_seen rows uid ≠ ∅
    ∧ roles = roles_seen rows uid.
Proof.
  unfold analyze_day8_completion.build_targets.
  rewrite (profile_loop_lookup analyze_day8_completion.read_summary_row
             (λ uid, uid ≠ "" ∧ uid ∉ excluded_users)
             (λ row, get_role_category (col_role row) ≠ "Other")
             day8_read_summary_row_lookup).
  - by rewrite counted_roles_seen.
  - intros row Hn. by destruct (decide (get_role_category (col_role row) = "Other")).
Qed.

(** The summary loops of verify_discrepancy.py and
    analyze_comprehensive_discrepancies.py are the one of
    analyze_day8_completion.py. *)
Lemma verify_discrepancy_same_loop rows :
  verify_discrepancy.build_users_summary_roles rows
  = analyze_day8_completion.build_targets rows.
Proof. reflexivity. Qed.

Lemma comprehensive_same_loop rows :
  analyze_comprehensive_discrepancies.build_users_summary_roles rows
  = analyze_day8_completion.build_targets rows.
Proof. reflexivity. Qed.

(** *** filter_ingame_logs.py: the valid users *)

Lemma get_valid_users_spec rows uid :
  uid ∈ filter_ingame_logs.get_valid_users rows
  ↔ uid ≠ "" ∧ (uid ∉ excluded_users) ∧ seen uid rows.
Proof.
  unfold filter_ingame_logs.get_valid_users.
  induction rows as [|row rows IH] using rev_ind.
  - simpl. unfold seen. rewrite Exists_nil. set_solver.
  - rewrite foldl_app, seen_snoc. simpl.
    unfold filter_ingame_logs.read_summary_row at 1.
    destruct (PyStr.is_empty (col_userId row)) eqn:He.
    { apply is_empty_true in He. rewrite IH. split; [tauto|].
      intros (Hn & Hx & [Hs|Hu]); [done|congruence]. }
    apply is_empty_false in He.
    case_bool_decide as Hex.
    { rewrite IH. split; [tauto|].
      intros (Hn & Hx & [Hs|Hu]); [done|congruence]. }
    rewrite elem_of_union, IH, elem_of_singleton. split.
    + intros [(? & ? & ?) | ->]; tauto.
    + intros (Hn & Hx & [Hs|Hu]); [tauto|]. right. done.
Qed.

(** ** Completion classifier of analyze_day8_completion.py *)

Lemma users_to_check_lookup targets uid :
  get_set (analyze_day8_completion.build_users_to_check targets) uid
  = match targets !! uid with
    | Some roles => analyze_day8_completion.missing_roles roles
    | None => ∅
    end.
Proof.
  unfold get_set, analyze_day8_completion.build_users_to_check.
  rewrite lookup_omap.
  destruct (targets !! uid) as [roles|]; simpl; [|done].
  case_bool_decide as Hm; simpl; [done|].
  by destruct (decide (analyze_day8_completion.missing_roles roles = ∅)).
Qed.

(** An entry of [users_to_check] is never the empty set. *)
Lemma users_to_check_nonempty targets uid missing :
  analyze_day8_completion.build_users_to_check targets !! uid = Some missing →
  missing ≠ ∅.
Proof.
  unfold analyze_day8_completion.build_users_to_check.
  rewrite lookup_omap.
  destruct (targets !! uid) as [roles|]; simpl; [|done].
  case_bool_decide; [|done]. by intros [= <-].
Qed.

(** Closes a goal that has a false hypothesis about explicit role sets,
    by evaluating the hypothesis. *)
Ltac refute_roles :=
  exfalso;
  match goal with
  | H : @eq (gset string) _ _ |- _ =>
      apply (bool_decide_pack _) in H; vm_compute in H; exact H
  | H : _ ∉ _ |- _ =>
      apply (bool_decide_pack _) in H; vm_compute in H; exact H
  | H : _ ≠ _ |- _ =>
      apply (bool_decide_pack _) in H; vm_compute in H; exact H
  end.

(** C2: the expected-missing set that analyze_day8_completion computes
    for a user, as a function of the user's role set in the summary
    profile (both read with the empty set for a user without entry):
    {North America, Mars Colony} for {Athens}; {Mars Colony} for
    {Athens, North America}; {North America} for {Athens, Mars Colony};
    when Athens is absent and the role set is not empty, {Athens}
    together with North America if absent and Mars Colony if absent;
    and the empty set when the role set is empty or holds all three
    roles.  The role set is always drawn from the three roles, so the
    cases cover every profile; an entry of the profile is never the
    empty set, so the empty role set is that of a user without entry. *)
Theorem expected_missing_by_profile (summary_rows : list LogRow) (uid : string) :
  get_set (analyze_day8_completion.build_targets summary_rows) uid ⊆ three_roles
  ∧ (analyze_day8_completion.build_targets summary_rows !! uid ≠ Some ∅)
  ∧ (get_set (analyze_day8_completion.build_targets summary_rows) uid
       = {[ "Athens" ]} →
     get_set (analyze_day8_completion.build_users_to_check
               (analyze_day8_completion.build_targets summary_rows)) uid
       = {[ "North America"; "Mars Colony" ]})
  ∧ (get_set (analyze_day8_completion.build_targets summary_rows) uid
       = {[ "Athens"; "North America" ]} →
     get_set (analyze_day8_completion.build_users_to_check
               (analyze_day8_completion.build_targets summary_rows)) uid
       = {[ "Mars Colony" ]})
  ∧ (get_set (analyze_day8_completion.build_targets summary_rows) uid
       = {[ "Athens"; "Mars Colony" ]} →
     get_set (analyze_day8_completion.build_users_to_check
               (analyze_day8_completion.build_targets summary_rows)) uid
       = {[ "North America" ]})
  ∧ ("Athens" ∉ get_set (analyze_day8_completion.build_targets summary_rows) uid →
     get_set (analyze_day8_completion.build_targets summary_rows) uid ≠ ∅ →
     get_set (analyze_day8_completion.build_users_to_check
               (analyze_day8_completion.build_targets summary_rows)) uid
       = {[ "Athens" ]}
         ∪ (if decide ("North America"
                         ∈ get_set (analyze_day8_completion.build_targets
                                      summary_rows) uid)
            then ∅ else {[ "North America" ]})
         ∪ (if decide ("Mars Colony"
                         ∈ get_set (analyze_day8_completion.build_targets
                                      summary_rows) uid)
            then ∅ else {[ "Mars Colony" ]}))
  ∧ (get_set (analyze_day8_completion.build_targets summary_rows) uid = ∅
     ∨ get_set (analyze_day8_completion.build_targets summary_rows) uid
       = {[ "Athens"; "North America"; "Mars Colony" ]} →
     get_set (analyze_day8_completion.build_users_to_check
               (analyze_day8_completion.build_targets summary_rows)) uid
       = ∅).
Proof.
  rewrite users_to_check_lookup. unfold get_set.
  destruct (analyze_day8_completion.build_targets summary_rows !! uid)
    as [roles|] eqn:Ht; simpl.
  - apply day8_targets in Ht as (_ & Hne & ->).
    pose proof (roles_seen_subseteq summary_rows uid) as Hsub.
    split; [done|]. split; [congruence|].
    apply role_subsets in Hsub.
    repeat (apply elem_of_cons in Hsub as [Hr|Hsub]);
      [.. | by apply elem_of_nil in Hsub].
    all: rewrite Hr in *; clear Hr.
    all: repeat split; intros;
      repeat match goal with H : _ ∨ _ |- _ => destruct H end;
      first [ compute_done | refute_roles ].
  - split; [set_solver|]. split; [done|].
    repeat split; intros; try done;
      repeat match goal with H : _ ∨ _ |- _ => destruct H end;
      first [ done | refute_roles ].
Qed.

(** ** Day-8 verifier of analyze_day8_completion.py *)

Lemma matched_target_spec target_roles label c :
  analyze_day8_completion.matched_target target_roles label = Some c
  ↔ first_expected_marker target_roles label c.
Proof.
  unfold analyze_day8_completion.matched_target, first_expected_marker.
  split.
  - destruct (PyStr.contains "Athens" label) eqn:Ha;
      [case_bool_decide as Hta|]; simpl.
    1: { intros [= <-]. exists [], ["North America"; "Mars Colony"].
         repeat split; try done. intros c' Hc'. by apply elem_of_nil in Hc'. }
    all: destruct (PyStr.contains "North America" label) eqn:Hn;
      [case_bool_decide as Htn|]; simpl.
    all: try (intros [= <-]; exists ["Athens"], ["Mars Colony"];
              repeat split; try done;
              intros c' ->%list_elem_of_singleton [? ?]; congruence).
    all: destruct (PyStr.contains "Mars Colony" label) eqn:Hm;
      [case_bool_decide as Htm|]; simpl; try discriminate.
    all: intros [= <-]; exists ["Athens"; "North America"], [];
      repeat split; try done;
      intros c' [->| ->%list_elem_of_singleton]%elem_of_cons [? ?]; congruence.
  - intros (earlier & later & Hlist & Hin & Hc & Hfirst).
    destruct earlier as [|e1 [|e2 [|e3 earlier]]]; simplify_eq/=.
    + rewrite Hc, bool_decide_eq_true_2 by done. done.
    + assert (PyStr.contains "Athens" label
              && bool_decide ("Athens" ∈ target_roles) = false) as ->.
      { apply not_true_is_false. rewrite andb_true_iff, bool_decide_eq_true.
        intros [? ?]. apply (Hfirst "Athens"); [set_solver|done]. }
      rewrite Hc, bool_decide_eq_true_2 by done. done.
    + assert (PyStr.contains "Athens" label
              && bool_decide ("Athens" ∈ target_roles) = false) as ->.
      { apply not_true_is_false. rewrite andb_true_iff, bool_decide_eq_true.
        intros [? ?]. apply (Hfirst "Athens"); [set_solver|done]. }
      assert (PyStr.contains "North America" label
              && bool_decide ("North America" ∈ target_roles) = false) as ->.
      { apply not_true_is_false. rewrite andb_true_iff, bool_decide_eq_true.
        intros [? ?]. apply (Hfirst "North America"); [set_solver|done]. }
      rewrite Hc, bool_decide_eq_true_2 by done. done.
    + destruct earlier; discriminate.
Qed.

Lemma is_verified_mark (results : gmap string (gmap string bool)) u t uid c :
  analyze_day8_completion.is_verified
    (alter (λ by_role, <[t := true]> by_role) u
           (match results !! u with
            | None => <[u := ∅]> results
            | Some _ => results
            end)) uid c = true
  ↔ analyze_day8_completion.is_verified results uid c = true
    ∨ (u = uid ∧ t = c).
Proof.
  unfold analyze_day8_completion.is_verified.
  destruct (decide (u = uid)) as [<-|Hne].
  - rewrite lookup_alter_eq.
    assert (match results !! u with
            | None => <[u := ∅]> results
            | Some _ => results
            end !! u = Some (default ∅ (results !! u))) as ->.
    { destruct (results !! u) eqn:Hr; simpl; [done|]. by rewrite lookup_insert_eq. }
    simpl. destruct (decide (t = c)) as [<-|Hc].
    + rewrite lookup_insert_eq. simpl. tauto.
    + rewrite lookup_insert_ne by done. split; [tauto|].
      intros [?|[_ ?]]; done.
  - rewrite lookup_alter_ne by done.
    assert (match results !! u with
            | None => <[u := ∅]> results
            | Some _ => results
            end !! uid = results !! uid) as ->.
    { destruct (results !! u); [done|]. by rewrite lookup_insert_ne. }
    split; [tauto|]. intros [?|[? _]]; done.
Qed.

Lemma is_verified_scan_row users_to_check results row uid c :
  analyze_day8_completion.is_verified
    (analyze_day8_completion.scan_row users_to_check results row) uid c = true
  ↔ analyze_day8_completion.is_verified results uid c = true
    ∨ marks users_to_check row uid c.
Proof.
  unfold analyze_day8_completion.scan_row, marks.
  destruct (users_to_check !! col_userId row) as [target_roles|] eqn:Hu.
  - destruct (analyze_day8_completion.matched_target target_roles (col_role row))
      as [t|] eqn:Hm.
    + destruct (String.eqb (col_day row) "8") eqn:Hd.
      * apply String.eqb_eq in Hd. rewrite is_verified_mark. split.
        -- intros [?|[<- <-]]; [tauto|]. right. eauto 10.
        -- intros [?|(<- & _ & tr & Htr & Hmt)]; [tauto|].
           right. split; [done|]. congruence.
      * apply String.eqb_neq in Hd. split; [tauto|].
        intros [?|(_ & ? & _)]; done.
    + split; [tauto|].
      intros [?|(<- & _ & tr & Htr & Hmt)]; [done|]. congruence.
  - split; [tauto|].
    intros [?|(<- & _ & tr & Htr & _)]; [done|]. congruence.
Qed.

Lemma is_verified_foldl users_to_check results rows uid c :
  analyze_day8_completion.is_verified
    (foldl (analyze_day8_completion.scan_row users_to_check) results rows) uid c
  = true
  ↔ analyze_day8_completion.is_verified results uid c = true
    ∨ ∃ row, row ∈ rows ∧ marks users_to_check row uid c.
Proof.
  revert results. induction rows as [|row rows IH]; intros results; simpl.
  - split; [tauto|]. intros [?|(row & Hin & _)]; [done|].
    by apply elem_of_nil in Hin.
  - rewrite IH, is_verified_scan_row. split.
    + intros [[?|?]|(r & Hin & Hr)]; [tauto| |].
      * right. exists row. split; [left|done].
      * right. exists r. split; [by right|done].
    + intros [?|(r & Hin & Hr)]; [tauto|].
      apply elem_of_cons in Hin as [->|Hin]; [tauto|]. right. eauto.
Qed.

Lemma is_verified_empty uid c :
  analyze_day8_completion.is_verified ∅ uid c = false.
Proof.
  unfold analyze_day8_completion.is_verified. by rewrite lookup_empty.
Qed.

(** C3, as the code has it: with the day filter of
    analyze_day8_completion (the text "8"), [(uid, c)] is verified
    exactly when some in-game row of [uid] has a day field that is the
    text "8" itself and [c] is the first of Athens, North America, Mars
    Colony that is both in [uid]'s expected-missing set and a marker
    contained in the row's label.  In particular [c] is expected and
    its marker is in the label; markers of categories outside the
    expected set are passed over; a row with any other day field marks
    nothing. *)
Theorem day8_verified_iff (summary_rows ingame_rows : list LogRow)
    (uid c : string) :
  analyze_day8_completion.is_verified
    (analyze_day8_completion.analyze_day8_completion summary_rows ingame_rows).2
    uid c = true
  ↔ ∃ row, row ∈ ingame_rows
      ∧ col_userId row = uid
      ∧ col_day row = "8"
      ∧ first_expected_marker
          (get_set (analyze_day8_completion.analyze_day8_completion
                      summary_rows ingame_rows).1 uid)
          (col_role row) c.
Proof.
  unfold analyze_day8_completion.analyze_day8_completion. simpl.
  unfold analyze_day8_completion.scan.
  rewrite is_verified_foldl, is_verified_empty. unfold marks, get_set.
  split.
  - intros [?|(row & Hin & Hu & Hd & tr & Htr & Hm)]; [done|].
    exists row. rewrite Htr. simpl. by apply matched_target_spec in Hm.
  - intros (row & Hin & Hu & Hd & Hm). right. exists row.
    destruct (analyze_day8_completion.build_users_to_check _ !! uid)
      as [tr|] eqn:Htr; simpl in Hm.
    + apply matched_target_spec in Hm. eauto 10.
    + destruct Hm as (_ & _ & _ & Habs & _). by apply not_elem_of_empty in Habs.
Qed.

(** C9: once [(uid, c)] is verified after a prefix of the in-game rows,
    it is verified after every longer prefix. *)
Theorem verified_monotone (users_to_check : gmap string (gset string))
    (prefix more : list LogRow) (uid c : string) :
  analyze_day8_completion.is_verified
    (analyze_day8_completion.scan users_to_check prefix) uid c = true →
  analyze_day8_completion.is_verified
    (analyze_day8_completion.scan users_to_check (prefix ++ more)) uid c = true.
Proof.
  unfold analyze_day8_completion.scan. intros Hv.
  rewrite foldl_app. apply is_verified_foldl. by left.
Qed.

(** ** Max-day aggregate of analyze_max_day.py *)

Lemma matching_day_snoc int rows row uid marker d :
  matching_day int (rows ++ [row]) uid marker d
  ↔ matching_day int rows uid marker d
    ∨ (col_userId row = uid
       ∧ PyStr.contains marker (col_role row) = true
       ∧ int (col_day row) = Some d).
Proof.
  unfold matching_day. split.
  - intros (r & Hin & Hr).
    apply elem_of_app in Hin as [Hin|Hin%list_elem_of_singleton];
      [left; eauto | right; by subst].
  - intros [(r & Hin & Hr)|Hr].
    + exists r. split; [apply elem_of_app; by left | done].
    + exists row. split; [apply elem_of_app; right; by apply list_elem_of_singleton | done].
Qed.

Lemma max_day_read_row_other int targets max_days row uid :
  col_userId row ≠ uid →
  analyze_max_day.read_row int targets max_days row !! uid = max_days !! uid.
Proof.
  intros Hne. unfold analyze_max_day.read_row.
  repeat case_match; try done. by rewrite lookup_insert_ne.
Qed.

Lemma max_day_read_row_same int targets max_days row marker r :
  targets !! col_userId row = Some marker →
  max_days !! col_userId row = Some r →
  analyze_max_day.read_row int targets max_days row !! col_userId row
  = Some (match int (col_day row) with
          | Some d =>
              if PyStr.contains marker (col_role row) && (r <? d)%Z
              then d else r
          | None => r
          end).
Proof.
  intros Ht Hr. unfold analyze_max_day.read_row. rewrite Ht.
  rewrite (lookup_total_correct _ _ _ Hr).
  destruct (PyStr.contains marker (col_role row)); simpl.
  - destruct (int (col_day row)) as [d|]; [|done].
    rewrite Z.gtb_ltb. destruct (r <? d)%Z; [|done].
    by rewrite lookup_insert_eq.
  - by destruct (int (col_day row)).
Qed.

(** The loop invariant: the stored value is 0 or the day of a matching
    row, and no matching row has a larger day. *)
Lemma max_day_scan_invariant int targets rows uid marker :
  targets !! uid = Some marker →
  ∃ r, analyze_max_day.scan int targets rows !! uid = Some r
       ∧ (0 ≤ r)%Z
       ∧ (r = 0%Z ∨ matching_day int rows uid marker r)
       ∧ ∀ d, matching_day int rows uid marker d → (d ≤ r)%Z.
Proof.
  intros Ht. unfold analyze_max_day.scan.
  induction rows as [|row rows IH] using rev_ind.
  - exists 0%Z. simpl. unfold analyze_max_day.init_max_days.
    rewrite lookup_fmap, Ht. simpl. repeat split; [lia|by left|].
    intros d (r & Hin & _). by apply elem_of_nil in Hin.
  - destruct IH as (r & Hr & Hpos & Hwit & Hmax).
    rewrite foldl_app. simpl.
    destruct (decide (col_userId row = uid)) as [Hu|Hu].
    + subst uid. rewrite (max_day_read_row_same int _ _ _ marker r) by done.
      destruct (int (col_day row)) as [d|] eqn:Hd.
      * destruct (PyStr.contains marker (col_role row)) eqn:Hc; simpl.
        -- destruct (Z.ltb_spec r d) as [Hlt|Hge].
           ++ exists d. split; [done|]. split; [lia|]. split.
              ** right. apply matching_day_snoc. right. done.
              ** intros d' [Hd'|(_ & _ & Hd')]%matching_day_snoc.
                 --- apply Hmax in Hd'. lia.
                 --- rewrite Hd in Hd'. injection Hd' as <-. lia.
           ++ exists r. split; [done|]. split; [done|]. split.
              ** destruct Hwit as [?|?]; [by left|].
                 right. apply matching_day_snoc. by left.
              ** intros d' [Hd'|(_ & _ & Hd')]%matching_day_snoc.
                 --- by apply Hmax.
                 --- rewrite Hd in Hd'. injection Hd' as <-. lia.
        -- exists r. split; [done|]. split; [done|]. split.
           ++ destruct Hwit as [?|?]; [by left|].
              right. apply matching_day_snoc. by left.
           ++ intros d' [Hd'|(_ & Hc' & _)]%matching_day_snoc.
              ** by apply Hmax.
              ** congruence.
      * exists r. split; [done|]. split; [done|]. split.
        -- destruct Hwit as [?|?]; [by left|].
           right. apply matching_day_snoc. by left.
        -- intros d' [Hd'|(_ & _ & Hd')]%matching_day_snoc.
           ++ by apply Hmax.
           ++ congruence.
    + rewrite max_day_read_row_other by done.
      exists r. split; [done|]. split; [done|]. split.
      * destruct Hwit as [?|?]; [by left|].
        right. apply matching_day_snoc. by left.
      * intros d' [Hd'|(Hu' & _)]%matching_day_snoc.
        -- by apply Hmax.
        -- done.
Qed.

(** C10: for a target user and its marker, and whatever [int] reads
    from a day field, analyze_max_day stores a
    value that is at least 0; it is exactly 0 when no row of the user
    whose label contains the marker has a day field that reads as a
    positive integer (so "no matching row" and "matching rows of day 0"
    give the same answer); otherwise it is the largest integer read
    from the day field of such a row.  A negative day is never stored. *)
Theorem max_day_result (int : string → option Z)
    (targets : gmap string string) (rows : list LogRow)
    (uid marker : string) :
  targets !! uid = Some marker →
  ∃ result : Z,
    analyze_max_day.scan int targets rows !! uid = Some result
    ∧ (0 ≤ result)%Z
    ∧ ((∀ d, matching_day int rows uid marker d → (d ≤ 0)%Z) → result = 0%Z)
    ∧ ((∃ d, matching_day int rows uid marker d ∧ (0 < d)%Z) →
       matching_day int rows uid marker result
       ∧ ∀ d, matching_day int rows uid marker d → (d ≤ result)%Z).
Proof.
  intros Ht.
  destruct (max_day_scan_invariant int targets rows uid marker Ht)
    as (r & Hr & Hpos & Hwit & Hmax).
  exists r. split; [done|]. split; [done|]. split.
  - intros Hall. destruct Hwit as [?|Hm]; [done|]. apply Hall in Hm. lia.
  - intros (d & Hd & Hdpos). split; [|done].
    destruct Hwit as [->|?]; [|done]. apply Hmax in Hd. lia.
Qed.

(** ** Population filter of filter_ingame_logs.py *)

Section FilterLoop.

Context {datetime : Type}.
Variable fromisoformat : string → option datetime.
Variable dt_lt : datetime → datetime → option bool.
Variable valid_users : gset string.

Abbreviation read_row := (filter_ingame_logs.read_row fromisoformat dt_lt valid_users).
Abbreviation read_rows := (filter_ingame_logs.read_rows fromisoformat dt_lt valid_users).

(** One row: it is counted, and either appended to [kept_rows] or
    counted as removed, by the membership test alone. *)
Lemma read_row_effect st row st' :
  read_row st row = Some st' →
  filter_ingame_logs.total_count st' = filter_ingame_logs.total_count st + 1
  ∧ filter_ingame_logs.kept_rows st'
    = filter_ingame_logs.kept_rows st
      ++ filter (λ r, col_userId r ∈ valid_users) [row]
  ∧ filter_ingame_logs.removed_count st'
    = filter_ingame_logs.removed_count st
      + length (filter (λ r, col_userId r ∉ valid_users) [row]).
Proof.
  unfold filter_ingame_logs.read_row.
  rewrite !filter_cons, !filter_nil.
  case_bool_decide as Hv.
  - destruct (filter_ingame_logs.track _ _ _ _ _) as [[mn mx]|]; simpl;
      [|discriminate].
    intros [= <-]. simpl.
    rewrite decide_True by done. rewrite decide_False by tauto.
    simpl. repeat split; lia.
  - intros [= <-]. simpl.
    rewrite decide_False by done. rewrite decide_True by done.
    simpl. rewrite app_nil_r. done.
Qed.

Lemma read_rows_effect rows st st' :
  read_rows st rows = Some st' →
  filter_ingame_logs.total_count st'
    = filter_ingame_logs.total_count st + length rows
  ∧ filter_ingame_logs.kept_rows st'
    = filter_ingame_logs.kept_rows st
      ++ filter (λ r, col_userId r ∈ valid_users) rows
  ∧ filter_ingame_logs.removed_count st'
    = filter_ingame_logs.removed_count st
      + length (filter (λ r, col_userId r ∉ valid_users) rows).
Proof.
  revert st. induction rows as [|row rows IH]; intros st; simpl.
  - intros [= <-]. rewrite app_nil_r. repeat split; lia.
  - destruct (read_row st row) as [st1|] eqn:H1; simpl; [|discriminate].
    intros Hrest. apply read_row_effect in H1 as (Ht & Hk & Hr).
    apply IH in Hrest as (Ht' & Hk' & Hr').
    rewrite Ht', Hk', Hr', Ht, Hk, Hr.
    change (row :: rows) with ([row] ++ rows).
    rewrite !filter_app, !length_app, <- !app_assoc. simpl.
    repeat split; lia.
Qed.

(** The run ends normally when no comparison of timestamps fails. *)
Lemma read_rows_total rows st :
  (∀ a b, is_Some (dt_lt a b)) → is_Some (read_rows st rows).
Proof.
  intros Hcmp. revert st. induction rows as [|row rows IH]; intros st; simpl.
  - by eexists.
  - assert (is_Some (read_row st row)) as [st1 ->]; [|by apply IH].
    unfold filter_ingame_logs.read_row.
    case_bool_decide; [|by eexists].
    assert (is_Some (filter_ingame_logs.track fromisoformat dt_lt
                       (filter_ingame_logs.min_ts st)
                       (filter_ingame_logs.max_ts st) (col_timestamp row)))
      as [[mn mx] ->]; [|by eexists].
    unfold filter_ingame_logs.track.
    destruct (fromisoformat _) as [ts|]; [|by eexists].
    destruct (filter_ingame_logs.min_ts st) as [m|],
             (filter_ingame_logs.max_ts st) as [m'|]; simpl.
    + destruct (Hcmp ts m) as [b ->], (Hcmp m' ts) as [b' ->]. by eexists.
    + destruct (Hcmp ts m) as [b ->]. by eexists.
    + destruct (Hcmp m' ts) as [b' ->]. by eexists.
    + by eexists.
Qed.

End FilterLoop.

Lemma filter_length_complement (valid_users : gset string) (rows : list LogRow) :
  length (filter (λ r, col_userId r ∈ valid_users) rows)
  + length (filter (λ r, col_userId r ∉ valid_users) rows)
  = length rows.
Proof.
  induction rows as [|row rows IH]; [done|].
  rewrite !filter_cons.
  destruct (decide (col_userId row ∈ valid_users)).
  - rewrite decide_False by tauto. simpl. lia.
  - rewrite decide_True by done. simpl. lia.
Qed.

(** C4: in a run of the filter loop of filter_ingame_logs over any
    in-game rows and any set of valid users, the retained rows together
    with the removed count make up the total count, which is the number
    of rows read; a row is retained exactly when its userId is a valid
    user; and the retained rows are the valid users' rows themselves,
    in their original order.  The run ends normally whenever no
    timestamp comparison raises. *)
Theorem filter_retains_valid_rows {datetime : Type}
    (fromisoformat : string → option datetime)
    (dt_lt : datetime → datetime → option bool)
    (valid_users : gset string) (rows : list LogRow) :
  ((∀ a b, is_Some (dt_lt a b)) →
   is_Some (filter_ingame_logs.read_rows fromisoformat dt_lt valid_users
              filter_ingame_logs.init rows))
  ∧ ∀ st,
      filter_ingame_logs.read_rows fromisoformat dt_lt valid_users
        filter_ingame_logs.init rows = Some st →
      length (filter_ingame_logs.kept_rows st)
        + filter_ingame_logs.removed_count st
        = filter_ingame_logs.total_count st
      ∧ filter_ingame_logs.total_count st = length rows
      ∧ filter_ingame_logs.kept_rows st
        = filter (λ row, col_userId row ∈ valid_users) rows
      ∧ filter_ingame_logs.removed_count st
        = length (filter (λ row, col_userId row ∉ valid_users) rows)
      ∧ (∀ row, row ∈ filter_ingame_logs.kept_rows st
                ↔ row ∈ rows ∧ col_userId row ∈ valid_users)
      ∧ filter_ingame_logs.kept_rows st `sublist_of` rows.
Proof.
  split; [apply read_rows_total|].
  intros st (Ht & Hk & Hr)%read_rows_effect. simpl in *.
  rewrite Ht, Hk, Hr.
  pose proof (filter_length_complement valid_users rows).
  split; [lia|]. split; [done|]. split; [done|]. split; [done|]. split.
  - intros row. rewrite list_elem_of_filter. tauto.
  - apply sublist_filter.
Qed.

(** *** The overwrite of the log file *)

Lemma run_write_rows file rows :
  filter_ingame_logs.run_steps file (filter_ingame_logs.WriteRow <$> rows)
  = file ++ (filter_ingame_logs.DataLine <$> rows).
Proof.
  unfold filter_ingame_logs.run_steps.
  revert file. induction rows as [|row rows IH]; intros file; simpl.
  - by rewrite app_nil_r.
  - rewrite IH, <- app_assoc. done.
Qed.

Lemma run_overwrite header kept file :
  filter_ingame_logs.run_steps file
    (filter_ingame_logs.overwrite_steps header kept)
  = filter_ingame_logs.HeaderLine header
    :: (filter_ingame_logs.DataLine <$> kept).
Proof.
  unfold filter_ingame_logs.overwrite_steps.
  change (filter_ingame_logs.run_steps file (?a :: ?b :: ?l))
    with (filter_ingame_logs.run_steps
            (filter_ingame_logs.write_step (filter_ingame_logs.write_step file a) b) l).
  by rewrite run_write_rows.
Qed.

(** The file written by a whole run. *)
Lemma filter_ingame_logs_file {datetime : Type}
    (fromisoformat : string → option datetime)
    (dt_lt : datetime → datetime → option bool)
    summary_rows header ingame_rows st file :
  filter_ingame_logs.filter_ingame_logs fromisoformat dt_lt
    summary_rows header ingame_rows = Some (st, file) →
  file = filter_ingame_logs.HeaderLine header
         :: (filter_ingame_logs.DataLine
               <$> filter (λ row, col_userId row
                                  ∈ filter_ingame_logs.get_valid_users summary_rows)
                          ingame_rows).
Proof.
  unfold filter_ingame_logs.filter_ingame_logs.
  destruct (filter_ingame_logs.read_rows _ _ _ _ _) as [st'|] eqn:Hrun;
    simpl; [|discriminate].
  intros [= <- <-].
  change (foldl filter_ingame_logs.write_step ?f ?l)
    with (filter_ingame_logs.run_steps f l).
  rewrite run_write_rows.
  by apply read_rows_effect in Hrun as (_ & -> & _).
Qed.

(** C5, as the code has it: the overwrite is done in place.  Its first
    effect empties the file; the header and the retained rows are then
    appended one line at a time.  Cut short after one or more effects,
    the file holds a prefix of the new content and nothing of the old
    one; only before the first effect is the original still there, and
    only the complete run leaves the header followed by all retained
    rows. *)
Theorem overwrite_in_place (header : list string) (kept : list LogRow)
    (file : list filter_ingame_logs.CsvLine) (n : nat) :
  filter_ingame_logs.interrupted_after 0 header kept file = file
  ∧ filter_ingame_logs.interrupted_after (S n) header kept file
    = take n (filter_ingame_logs.HeaderLine header
              :: (filter_ingame_logs.DataLine <$> kept))
  ∧ filter_ingame_logs.run_steps file
      (filter_ingame_logs.overwrite_steps header kept)
    = filter_ingame_logs.HeaderLine header
      :: (filter_ingame_logs.DataLine <$> kept).
Proof.
  split; [done|]. split; [|apply run_overwrite].
  unfold filter_ingame_logs.interrupted_after, filter_ingame_logs.overwrite_steps.
  destruct n as [|n]; [done|]. simpl.
  change (foldl filter_ingame_logs.write_step ?f ?l)
    with (filter_ingame_logs.run_steps f l).
  rewrite <- fmap_take, run_write_rows, fmap_take. done.
Qed.

(** ** Exclusion of the operator accounts *)

(** The scripts that carry the exclusion test leave the operator
    accounts out of the profile, the buckets, the expected-missing
    table, the valid users and the retained rows. *)
Lemma excluded_users_left_out (uid : string) (summary_rows ingame_rows : list LogRow) :
  uid ∈ excluded_users →
  analyze_users_debug.build_users_roles summary_rows !! uid = None
  ∧ (uid ∉ (analyze_users_debug.analyze_logs summary_rows).2.*1)
  ∧ analyze_day8_completion.build_targets summary_rows !! uid = None
  ∧ (analyze_day8_completion.analyze_day8_completion
       summary_rows ingame_rows).1 !! uid = None
  ∧ (uid ∉ filter_ingame_logs.get_valid_users summary_rows)
  ∧ ∀ (datetime : Type) (fromisoformat : string → option datetime)
      (dt_lt : datetime → datetime → option bool) st,
      filter_ingame_logs.read_rows fromisoformat dt_lt
        (filter_ingame_logs.get_valid_users summary_rows)
        filter_ingame_logs.init ingame_rows = Some st →
      ∀ row, row ∈ filter_ingame_logs.kept_rows st → col_userId row ≠ uid.
Proof.
  intros Hex.
  assert (analyze_users_debug.build_users_roles summary_rows !! uid = None)
    as Hdebug.
  { apply eq_None_not_Some. intros [roles Hr].
    apply analyze_users_debug_profile in Hr as ([_ ?] & _). done. }
  assert (analyze_day8_completion.build_targets summary_rows !! uid = None)
    as Hday8.
  { apply eq_None_not_Some. intros [roles Hr].
    apply day8_targets in Hr as ([_ ?] & _). done. }
  assert (uid ∉ filter_ingame_logs.get_valid_users summary_rows) as Hvalid.
  { rewrite get_valid_users_spec. tauto. }
  split; [done|]. split; [|split; [done|split; [|split; [done|]]]].
  - unfold analyze_users_debug.analyze_logs. simpl.
    rewrite <- list_fmap_compose. simpl. rewrite list_fmap_id.
    unfold sorted_keys. rewrite merge_sort_Permutation, elem_of_elements.
    by apply not_elem_of_dom.
  - unfold analyze_day8_completion.analyze_day8_completion,
      analyze_day8_completion.build_users_to_check. simpl.
    by rewrite lookup_omap, Hday8.
  - intros datetime fromisoformat dt_lt st Hrun row Hin Hu.
    apply read_rows_effect in Hrun as (_ & Hk & _). simpl in Hk.
    rewrite Hk in Hin. apply list_elem_of_filter in Hin as [Hv _].
    congruence.
Qed.

(** C6, where the code departs from it: analyze_users.py has no
    exclusion test.  On a summary log with the single row
    (yoav@tau.ac.il, "Athens"), the operator account gets a role
    profile, is listed among the unique ids, and is counted in the
    Athens-only bucket; on the same log analyze_users_debug.py gives it
    no profile. *)
Theorem analyze_users_keeps_operator_account :
  "yoav@tau.ac.il" ∈ excluded_users
  ∧ analyze_users.build_users_roles
      [mkRow "yoav@tau.ac.il" "Athens" "" "" []] !! "yoav@tau.ac.il"
    = Some {[ "Athens" ]}
  ∧ (analyze_users.analyze_logs
       [mkRow "yoav@tau.ac.il" "Athens" "" "" []]).1.2 = ["yoav@tau.ac.il"]
  ∧ analyze_users.only_athens
      (analyze_users.analyze_logs
         [mkRow "yoav@tau.ac.il" "Athens" "" "" []]).2 = 1
  ∧ analyze_users_debug.build_users_roles
      [mkRow "yoav@tau.ac.il" "Athens" "" "" []] !! "yoav@tau.ac.il" = None.
Proof. compute_done. Qed.

(** ** Users seen only with other labels *)

(** C7, as the code has it: for a user with a non-empty, non-excluded
    id who has summary rows, all of them with labels classified
    "Other", the profiles built by analyze_users.py and
    analyze_users_debug.py hold an entry with the empty role set; the
    profiles built by verify_discrepancy.py,
    analyze_comprehensive_discrepancies.py and
    analyze_day8_completion.py create an entry only at a user's first
    role label and so hold no entry for that user. *)
Theorem other_only_user_profile (rows : list LogRow) (uid : string) :
  uid ≠ "" →
  uid ∉ excluded_users →
  seen uid rows →
  (∀ row, row ∈ rows → col_userId row = uid →
          get_role_category (col_role row) = "Other") →
  analyze_users.build_users_roles rows !! uid = Some ∅
  ∧ analyze_users_debug.build_users_roles rows !! uid = Some ∅
  ∧ verify_discrepancy.build_users_summary_roles rows !! uid = None
  ∧ analyze_comprehensive_discrepancies.build_users_summary_roles rows !! uid
    = None
  ∧ analyze_day8_completion.build_targets rows !! uid = None.
Proof.
  intros Hne Hex Hseen Hother.
  apply roles_seen_empty in Hother.
  assert (analyze_day8_completion.build_targets rows !! uid = None) as Hnone.
  { apply eq_None_not_Some. intros [roles Hr].
    apply day8_targets in Hr as (_ & ? & _). done. }
  split; [|split; [|split; [|split]]].
  - apply analyze_users_profile. by rewrite Hother.
  - apply analyze_users_debug_profile. by rewrite Hother.
  - by rewrite verify_discrepancy_same_loop.
  - by rewrite comprehensive_same_loop.
  - done.
Qed.

(** C7 at a summary log whose only row is (u1, "Tel Aviv"). *)
Lemma other_only_user_profile_witness :
  analyze_users.build_users_roles [mkRow "u1" "Tel Aviv" "" "" []] !! "u1"
    = Some ∅
  ∧ analyze_users_debug.build_users_roles [mkRow "u1" "Tel Aviv" "" "" []] !! "u1"
    = Some ∅
  ∧ verify_discrepancy.build_users_summary_roles
      [mkRow "u1" "Tel Aviv" "" "" []] !! "u1" = None
  ∧ analyze_comprehensive_discrepancies.build_users_summary_roles
      [mkRow "u1" "Tel Aviv" "" "" []] !! "u1" = None
  ∧ analyze_day8_completion.build_targets
      [mkRow "u1" "Tel Aviv" "" "" []] !! "u1" = None.
Proof.
  apply (other_only_user_profile [mkRow "u1" "Tel Aviv" "" "" []] "u1").
  - discriminate.
  - compute_done.
  - left. reflexivity.
  - intros row Hin _. apply list_elem_of_singleton in Hin. subst row.
    reflexivity.
Defined.

(** C7, counterexample: the statement fails for the profile of verify_discrepancy.py (and of
    the scripts with the same loop): user u1, whose only summary row has
    the label "Tel Aviv", has a non-empty, non-excluded id and only
    "Other" labels, but no entry in the profile. *)
Lemma other_only_user_counterexample :
  "u1" ≠ ""
  ∧ ("u1" ∉ excluded_users)
  ∧ get_role_category "Tel Aviv" = "Other"
  ∧ (verify_discrepancy.build_users_summary_roles
       [mkRow "u1" "Tel Aviv" "" "" []] !! "u1" ≠ Some ∅)
  ∧ (analyze_comprehensive_discrepancies.build_users_summary_roles
       [mkRow "u1" "Tel Aviv" "" "" []] !! "u1" ≠ Some ∅).
Proof. compute_done. Qed.

(** ** Witnesses and counterexamples *)

(** C3, counterexample: the statement fails in two ways.  A user whose summary profile is
    {Athens} is expected to show North America and Mars Colony.
    (1) One in-game row of day "8" whose label contains both markers:
    the stated condition holds for Mars Colony, but only North
    America, the earlier one, is marked.  (2) One in-game row with the
    label "Mars Colony" and the day field "08", which reads as the
    integer 8: the stated condition holds, but the day is compared as
    text and nothing is marked. *)
Lemma day_filter_claim_counterexample :
  ¬ (analyze_day8_completion.is_verified
       (analyze_day8_completion.analyze_day8_completion
          [mkRow "u1" "Athens" "" "" []]
          [mkRow "u1" "North America to Mars Colony" "8" "" []]).2
       "u1" "Mars Colony" = true
     ↔ "Mars Colony"
         ∈ get_set (analyze_day8_completion.analyze_day8_completion
                      [mkRow "u1" "Athens" "" "" []]
                      [mkRow "u1" "North America to Mars Colony" "8" "" []]).1
                   "u1"
       ∧ ∃ row, row ∈ [mkRow "u1" "North America to Mars Colony" "8" "" []]
           ∧ col_userId row = "u1"
           ∧ PyStr.contains "Mars Colony" (col_role row) = true
           ∧ PyStr.int (col_day row) = Some 8%Z)
  ∧ ¬ (analyze_day8_completion.is_verified
         (analyze_day8_completion.analyze_day8_completion
            [mkRow "u1" "Athens" "" "" []]
            [mkRow "u1" "Mars Colony" "08" "" []]).2
         "u1" "Mars Colony" = true
       ↔ "Mars Colony"
           ∈ get_set (analyze_day8_completion.analyze_day8_completion
                        [mkRow "u1" "Athens" "" "" []]
                        [mkRow "u1" "Mars Colony" "08" "" []]).1
                     "u1"
         ∧ ∃ row, row ∈ [mkRow "u1" "Mars Colony" "08" "" []]
             ∧ col_userId row = "u1"
             ∧ PyStr.contains "Mars Colony" (col_role row) = true
             ∧ PyStr.int (col_day row) = Some 8%Z).
Proof.
  split.
  - intros [_ Hclaim].
    assert (analyze_day8_completion.is_verified
       (analyze_day8_completion.analyze_day8_completion
          [mkRow "u1" "Athens" "" "" []]
          [mkRow "u1" "North America to Mars Colony" "8" "" []]).2
       "u1" "Mars Colony" = false) as Hcode by (by vm_compute).
    rewrite Hclaim in Hcode; [discriminate|].
    split; [compute_done|].
    eexists. split; [left|]. by vm_compute.
  - intros [_ Hclaim].
    assert (analyze_day8_completion.is_verified
         (analyze_day8_completion.analyze_day8_completion
            [mkRow "u1" "Athens" "" "" []]
            [mkRow "u1" "Mars Colony" "08" "" []]).2
         "u1" "Mars Colony" = false) as Hcode by (by vm_compute).
    rewrite Hclaim in Hcode; [discriminate|].
    split; [compute_done|].
    eexists. split; [left|]. by vm_compute.
Qed.

(** C9 at a scan where Mars Colony is expected for u1: verified after
    the first row, and still verified after two more rows. *)
Lemma verified_monotone_witness :
  analyze_day8_completion.is_verified
    (analyze_day8_completion.scan {[ "u1" := {[ "Mars Colony" ]} ]}
       [mkRow "u1" "Mars Colony" "8" "" []]) "u1" "Mars Colony" = true
  ∧ analyze_day8_completion.is_verified
      (analyze_day8_completion.scan {[ "u1" := {[ "Mars Colony" ]} ]}
         ([mkRow "u1" "Mars Colony" "8" "" []]
          ++ [mkRow "u1" "Mars Colony" "3" "" []; mkRow "u1" "Athens" "8" "" []]))
      "u1" "Mars Colony" = true.
Proof.
  assert (analyze_day8_completion.is_verified
    (analyze_day8_completion.scan {[ "u1" := {[ "Mars Colony" ]} ]}
       [mkRow "u1" "Mars Colony" "8" "" []]) "u1" "Mars Colony" = true) as Hv
    by (vm_compute; reflexivity).
  split; [exact Hv|].
  exact (verified_monotone _ _ _ _ _ Hv).
Defined.

(** C10 at four rows of one of the three target users: days "5", "-3"
    and "seven" under the marker, and day "9" under another label. *)
Lemma max_day_result_witness :
  analyze_max_day.targets !! "gal2@mail.tau.ac.il" = Some "Mars Colony"
  ∧ analyze_max_day.analyze_max_day PyStr.int
      [mkRow "gal2@mail.tau.ac.il" "Mars Colony" "5" "" [];
       mkRow "gal2@mail.tau.ac.il" "Mars Colony" "-3" "" [];
       mkRow "gal2@mail.tau.ac.il" "Mars Colony" "seven" "" [];
       mkRow "gal2@mail.tau.ac.il" "Athens" "9" "" []]
      !! "gal2@mail.tau.ac.il" = Some 5%Z.
Proof.
  assert (analyze_max_day.targets !! "gal2@mail.tau.ac.il" = Some "Mars Colony")
    as Ht by (vm_compute; reflexivity).
  split; [exact Ht|].
  destruct (max_day_result PyStr.int analyze_max_day.targets
      [mkRow "gal2@mail.tau.ac.il" "Mars Colony" "5" "" [];
       mkRow "gal2@mail.tau.ac.il" "Mars Colony" "-3" "" [];
       mkRow "gal2@mail.tau.ac.il" "Mars Colony" "seven" "" [];
       mkRow "gal2@mail.tau.ac.il" "Athens" "9" "" []]
      "gal2@mail.tau.ac.il" "Mars Colony" Ht) as (r & Hr & _).
  unfold analyze_max_day.analyze_max_day. rewrite Hr.
  vm_compute in Hr. exact (eq_sym Hr).
Defined.

(** C5, counterexample: take a log file with two rows of which the
    first is retained.  After the first effect of the overwrite the
    file is empty: it is neither the original file nor the new one. *)
Lemma atomic_rewrite_counterexample :
  filter_ingame_logs.interrupted_after 1 ["userId"; "role"; "day"; "timestamp"]
    [mkRow "u3" "Athens" "1" "2024-11-20T10:00:00Z" []]
    [filter_ingame_logs.HeaderLine ["userId"; "role"; "day"; "timestamp"];
     filter_ingame_logs.DataLine (mkRow "u3" "Athens" "1" "2024-11-20T10:00:00Z" []);
     filter_ingame_logs.DataLine
       (mkRow "yoav@tau.ac.il" "Athens" "1" "2024-11-22T08:30:00+00:00" [])]
  = []
  ∧ ([] : list filter_ingame_logs.CsvLine)
    ≠ [filter_ingame_logs.HeaderLine ["userId"; "role"; "day"; "timestamp"];
       filter_ingame_logs.DataLine (mkRow "u3" "Athens" "1" "2024-11-20T10:00:00Z" []);
       filter_ingame_logs.DataLine
         (mkRow "yoav@tau.ac.il" "Athens" "1" "2024-11-22T08:30:00+00:00" [])]
  ∧ ([] : list filter_ingame_logs.CsvLine)
    ≠ filter_ingame_logs.run_steps
        [filter_ingame_logs.HeaderLine ["userId"; "role"; "day"; "timestamp"];
         filter_ingame_logs.DataLine (mkRow "u3" "Athens" "1" "2024-11-20T10:00:00Z" []);
         filter_ingame_logs.DataLine
           (mkRow "yoav@tau.ac.il" "Athens" "1" "2024-11-22T08:30:00+00:00" [])]
        (filter_ingame_logs.overwrite_steps ["userId"; "role"; "day"; "timestamp"]
           [mkRow "u3" "Athens" "1" "2024-11-20T10:00:00Z" []]).
Proof. split; [reflexivity|]. split; discriminate. Qed.

(** The exclusion at a summary log that has a row of an operator account. *)
Lemma excluded_users_left_out_witness :
  analyze_users_debug.build_users_roles
    [mkRow "yoni_levy@tau.ac.il" "Athens" "" "" []; mkRow "u3" "Athens" "" "" []]
    !! "yoni_levy@tau.ac.il" = None
  ∧ ("yoni_levy@tau.ac.il"
       ∉ filter_ingame_logs.get_valid_users
           [mkRow "yoni_levy@tau.ac.il" "Athens" "" "" [];
            mkRow "u3" "Athens" "" "" []]).
Proof.
  assert ("yoni_levy@tau.ac.il" ∈ excluded_users) as Hex by compute_done.
  destruct (excluded_users_left_out "yoni_levy@tau.ac.il"
              [mkRow "yoni_levy@tau.ac.il" "Athens" "" "" [];
               mkRow "u3" "Athens" "" "" []] [] Hex)
    as (Hprofile & _ & _ & _ & Hvalid & _).
  split; [exact Hprofile | exact Hvalid].
Defined.

(** ** Scenarios *)

(** Summary rows (u1, Athens), (u1, North America): Mars Colony is
    expected; an in-game row "Mars Colony Day 3" of day 3 does not
    verify it under the day-8 filter. *)
Example scenario_athens_and_north_america :
  get_set (analyze_day8_completion.analyze_day8_completion
             [mkRow "u1" "Athens" "" "" []; mkRow "u1" "North America" "" "" []]
             [mkRow "u1" "Mars Colony Day 3" "3" "" []]).1 "u1"
  = {[ "Mars Colony" ]}
  ∧ analyze_day8_completion.is_verified
      (analyze_day8_completion.analyze_day8_completion
         [mkRow "u1" "Athens" "" "" []; mkRow "u1" "North America" "" "" []]
         [mkRow "u1" "Mars Colony Day 3" "3" "" []]).2 "u1" "Mars Colony"
    = false
  ∧ analyze_users_debug.classify {[ "Athens"; "North America" ]}
    = analyze_users_debug.athens_na_only.
Proof. split; [compute_done|]. split; by vm_compute. Qed.

(** Summary row (u2, Mars Colony) only: Athens and North America are
    expected, and the bucket is the one without Athens. *)
Example scenario_mars_colony_only :
  analyze_day8_completion.build_targets [mkRow "u2" "Mars Colony" "" "" []] !! "u2"
  = Some {[ "Mars Colony" ]}
  ∧ get_set (analyze_day8_completion.build_users_to_check
               (analyze_day8_completion.build_targets
                  [mkRow "u2" "Mars Colony" "" "" []])) "u2"
    = {[ "Athens"; "North America" ]}
  ∧ analyze_users_debug.classify {[ "Mars Colony" ]}
    = analyze_users_debug.na_or_mars_no_athens.
Proof. split; [compute_done|]. split; [compute_done | by vm_compute]. Qed.

(** An in-game log with rows of the excluded user yoav@tau.ac.il and of
    the valid user u3: only u3's row is retained and written back.
    Timestamps are compared as text here. *)
Example scenario_filter_valid_user :
  filter_ingame_logs.filter_ingame_logs
    (λ ts, Some ts) (λ a b, Some (String.ltb a b))
    [mkRow "yoav@tau.ac.il" "Athens" "" "" []; mkRow "u3" "Athens" "" "" []]
    ["userId"; "role"; "day"; "timestamp"]
    [mkRow "yoav@tau.ac.il" "Athens" "1" "2024-11-22T08:30:00+00:00" [];
     mkRow "u3" "Athens" "1" "2024-11-20T10:00:00Z" []]
  = Some
      (filter_ingame_logs.mkState string
         [mkRow "u3" "Athens" "1" "2024-11-20T10:00:00Z" []] 1 2
         (Some "2024-11-20T10:00:00+00:00") (Some "2024-11-20T10:00:00+00:00"),
       [filter_ingame_logs.HeaderLine ["userId"; "role"; "day"; "timestamp"];
        filter_ingame_logs.DataLine
          (mkRow "u3" "Athens" "1" "2024-11-20T10:00:00Z" [])]).
Proof. vm_compute. reflexivity. Qed.

(** * Part III: further properties of the scripts *)

(** ** The classifier on its own results *)

(** The four category names are fixed points of [get_role_category]:
    every result is one of them, and classifying a result gives it
    back.  The scans of the in-game log rely on this when they use a
    category name as the marker to look for. *)
Theorem get_role_category_idempotent (label : string) :
  get_role_category label ∈ ["Athens"; "North America"; "Mars Colony"; "Other"]
  ∧ get_role_category (get_role_category label) = get_role_category label
  ∧ (get_role_category label ≠ "Other" →
     PyStr.contains (get_role_category label) label = true).
Proof.
  split; [apply get_role_category_cases|].
  unfold get_role_category at 2 3 4 5.
  destruct (PyStr.contains "Athens" label) eqn:Ha; [by vm_compute|].
  destruct (PyStr.contains "North America" label) eqn:Hn; [by vm_compute|].
  destruct (PyStr.contains "Mars Colony" label) eqn:Hm; by vm_compute.
Qed.

(** ** The expected-missing set as a complement *)

Lemma missing_roles_complement (roles : gset string) :
  analyze_day8_completion.missing_roles roles = three_roles ∖ roles.
Proof.
  unfold analyze_day8_completion.missing_roles, analyze_day8_completion.add,
    three_roles.
  repeat case_bool_decide; simpl; set_solver.
Qed.

Lemma day8_targets_subseteq rows uid roles :
  analyze_day8_completion.build_targets rows !! uid = Some roles →
  roles ⊆ three_roles ∧ roles ≠ ∅.
Proof.
  intros (_ & Hne & ->)%day8_targets. split; [apply roles_seen_subseteq|done].
Qed.

Lemma users_to_check_spec (summary_rows : list LogRow)
    (uid : string) (missing : gset string) :
  analyze_day8_completion.build_users_to_check
    (analyze_day8_completion.build_targets summary_rows) !! uid = Some missing
  ↔ ∃ roles,
      analyze_day8_completion.build_targets summary_rows !! uid = Some roles
      ∧ roles ≠ three_roles
      ∧ missing = three_roles ∖ roles.
Proof.
  unfold analyze_day8_completion.build_users_to_check.
  rewrite lookup_omap.
  destruct (analyze_day8_completion.build_targets summary_rows !! uid)
    as [roles|] eqn:Ht; simpl.
  - apply day8_targets_subseteq in Ht as [Hsub _].
    rewrite missing_roles_complement.
    case_bool_decide as Hm.
    + split.
      * intros [= <-]. exists roles. split; [done|]. split; [|done].
        intros ->. apply Hm. set_solver.
      * intros (roles' & [= <-] & _ & ->). done.
    + split; [done|]. intros (roles' & [= <-] & Hne & _).
      exfalso. apply Hne. apply set_eq. intros c. split; [apply Hsub|].
      intros Hc. destruct (decide (c ∈ roles)); [done|].
      exfalso. set_solver.
  - split; [done|]. intros (roles & ? & _). done.
Qed.

(** A user is checked by analyze_day8_completion exactly when the
    summary profile has an entry for the user that does not hold all
    three roles; the roles to look for are then the three roles minus
    the ones in the profile: never empty, never a role the profile
    already has. *)
Theorem users_to_check_entries (summary_rows : list LogRow)
    (uid : string) (missing : gset string) :
  (analyze_day8_completion.build_users_to_check
     (analyze_day8_completion.build_targets summary_rows) !! uid = Some missing
   ↔ ∃ roles,
       analyze_day8_completion.build_targets summary_rows !! uid = Some roles
       ∧ roles ≠ three_roles
       ∧ missing = three_roles ∖ roles)
  ∧ (analyze_day8_completion.build_users_to_check
       (analyze_day8_completion.build_targets summary_rows) !! uid = Some missing →
     missing ≠ ∅ ∧ missing ⊆ three_roles
     ∧ missing ## get_set (analyze_day8_completion.build_targets summary_rows) uid).
Proof.
  split; [apply users_to_check_spec|].
  intros Hm. split; [by eapply users_to_check_nonempty|].
  apply users_to_check_spec in Hm as (roles & Ht & _ & ->).
  unfold get_set. rewrite Ht. simpl. set_solver.
Qed.

(** ** The headings of the day-8 report *)

(** Decides a statement about explicit role sets, in either direction. *)
Ltac decide_roles :=
  first
    [ compute_done
    | exfalso;
      match goal with
      | H : _ |- _ => apply (bool_decide_pack _) in H; vm_compute in H; exact H
      end ].

Lemma listed_by_profile (P : string * gset string → Prop)
    `{!∀ entry, Decision (P entry)}
    (summary_rows : list LogRow) (uid : string) :
  is_Some (filter P
             (analyze_day8_completion.build_users_to_check
                (analyze_day8_completion.build_targets summary_rows)) !! uid)
  ↔ ∃ roles,
      analyze_day8_completion.build_targets summary_rows !! uid = Some roles
      ∧ roles ≠ three_roles
      ∧ P (uid, three_roles ∖ roles).
Proof.
  split.
  - intros [m [Hm HP]%map_lookup_filter_Some].
    apply users_to_check_spec in Hm as (roles & Ht & Hne & ->). eauto.
  - intros (roles & Ht & Hne & HP). exists (three_roles ∖ roles).
    apply map_lookup_filter_Some. split; [|done].
    apply users_to_check_spec. eauto.
Qed.

Lemma heading_tests (roles : gset string) :
  roles ⊆ three_roles → roles ≠ ∅ →
  ((roles ≠ three_roles
    ∧ "North America" ∈ three_roles ∖ roles
    ∧ "Mars Colony" ∈ three_roles ∖ roles)
   ↔ roles = {[ "Athens" ]})
  ∧ ((roles ≠ three_roles
      ∧ "Mars Colony" ∈ three_roles ∖ roles
      ∧ ("North America" ∉ three_roles ∖ roles))
     ↔ roles = {[ "Athens"; "North America" ]} ∨ roles = {[ "North America" ]})
  ∧ ((roles ≠ three_roles
      ∧ "North America" ∈ three_roles ∖ roles
      ∧ ("Mars Colony" ∉ three_roles ∖ roles))
     ↔ roles = {[ "Athens"; "Mars Colony" ]} ∨ roles = {[ "Mars Colony" ]})
  ∧ ((roles ≠ three_roles ∧ "Athens" ∈ three_roles ∖ roles)
     ↔ "Athens" ∉ roles).
Proof.
  intros Hsub Hne. apply role_subsets in Hsub.
  repeat (apply elem_of_cons in Hsub as [->|Hsub]);
    [.. | by apply elem_of_nil in Hsub]; [done|..].
  all: clear Hne; (split; [|split; [|split]]); (split; intros Hcase; decide_roles).
Qed.

Lemma lookup_targets_iff (Q R : gset string → Prop)
    (summary_rows : list LogRow) (uid : string) :
  (∀ roles, roles ⊆ three_roles → roles ≠ ∅ → Q roles ↔ R roles) →
  (∃ roles,
      analyze_day8_completion.build_targets summary_rows !! uid = Some roles
      ∧ Q roles)
  ↔ (∃ roles,
      analyze_day8_completion.build_targets summary_rows !! uid = Some roles
      ∧ R roles).
Proof.
  intros HQR. split; intros (roles & Ht & H); exists roles; (split; [done|]);
    destruct (day8_targets_subseteq _ _ _ Ht) as [Hsub Hne];
    by apply (HQR roles Hsub Hne).
Qed.

(** Which users the report lists under each heading, by their summary
    profile: 'Athens Only' lists the users with exactly Athens;
    'Athens + North America' lists the users with Athens and North
    America and also the users with North America alone;
    'Athens + Mars' lists the users with Athens and Mars Colony and also
    the users with Mars Colony alone; 'No Athens' lists every user whose
    profile lacks Athens.  So a user with a single role other than
    Athens is listed twice. *)
Theorem report_headings (summary_rows : list LogRow) (uid : string) :
  (is_Some (analyze_day8_completion.listed_athens_only
              (analyze_day8_completion.build_users_to_check
                 (analyze_day8_completion.build_targets summary_rows)) !! uid)
   ↔ analyze_day8_completion.build_targets summary_rows !! uid
     = Some {[ "Athens" ]})
  ∧ (is_Some (analyze_day8_completion.listed_athens_na
                (analyze_day8_completion.build_users_to_check
                   (analyze_day8_completion.build_targets summary_rows)) !! uid)
     ↔ analyze_day8_completion.build_targets summary_rows !! uid
       = Some {[ "Athens"; "North America" ]}
       ∨ analyze_day8_completion.build_targets summary_rows !! uid
         = Some {[ "North America" ]})
  ∧ (is_Some (analyze_day8_completion.listed_athens_mars
                (analyze_day8_completion.build_users_to_check
                   (analyze_day8_completion.build_targets summary_rows)) !! uid)
     ↔ analyze_day8_completion.build_targets summary_rows !! uid
       = Some {[ "Athens"; "Mars Colony" ]}
       ∨ analyze_day8_completion.build_targets summary_rows !! uid
         = Some {[ "Mars Colony" ]})
  ∧ (is_Some (analyze_day8_completion.listed_no_athens
                (analyze_day8_completion.build_users_to_check
                   (analyze_day8_completion.build_targets summary_rows)) !! uid)
     ↔ ∃ roles,
         analyze_day8_completion.build_targets summary_rows !! uid = Some roles
         ∧ "Athens" ∉ roles).
Proof.
  unfold analyze_day8_completion.listed_athens_only,
    analyze_day8_completion.listed_athens_na,
    analyze_day8_completion.listed_athens_mars,
    analyze_day8_completion.listed_no_athens.
  split; [|split; [|split]].
  - etrans; [apply listed_by_profile|]. simpl.
    etrans; [apply (lookup_targets_iff
                      (λ roles, roles ≠ three_roles
                                ∧ "North America" ∈ three_roles ∖ roles
                                ∧ "Mars Colony" ∈ three_roles ∖ roles)
                      (λ roles, roles = {[ "Athens" ]}));
             intros roles Hsub Hne; apply (heading_tests roles Hsub Hne)|].
    naive_solver.
  - etrans; [apply listed_by_profile|]. simpl.
    etrans; [apply (lookup_targets_iff
                      (λ roles, roles ≠ three_roles
                                ∧ "Mars Colony" ∈ three_roles ∖ roles
                                ∧ ("North America" ∉ three_roles ∖ roles))
                      (λ roles, roles = {[ "Athens"; "North America" ]}
                                ∨ roles = {[ "North America" ]}));
             intros roles Hsub Hne; apply (heading_tests roles Hsub Hne)|].
    naive_solver.
  - etrans; [apply listed_by_profile|]. simpl.
    etrans; [apply (lookup_targets_iff
                      (λ roles, roles ≠ three_roles
                                ∧ "North America" ∈ three_roles ∖ roles
                                ∧ ("Mars Colony" ∉ three_roles ∖ roles))
                      (λ roles, roles = {[ "Athens"; "Mars Colony" ]}
                                ∨ roles = {[ "Mars Colony" ]}));
             intros roles Hsub Hne; apply (heading_tests roles Hsub Hne)|].
    naive_solver.
  - etrans; [apply listed_by_profile|]. simpl.
    apply (lookup_targets_iff
             (λ roles, roles ≠ three_roles ∧ "Athens" ∈ three_roles ∖ roles)
             (λ roles, "Athens" ∉ roles)).
    intros roles Hsub Hne. apply (heading_tests roles Hsub Hne).
Qed.

(** ** The unique ids and the counters *)

Global Instance str_le_total : Total str_le.
Proof. intros a b. apply String.leb_total. Qed.

Lemma elem_of_sorted_keys {V} (d : gmap string V) (uid : string) :
  uid ∈ sorted_keys d ↔ is_Some (d !! uid).
Proof.
  unfold sorted_keys.
  by rewrite merge_sort_Permutation, elem_of_elements, elem_of_dom.
Qed.

Lemma length_sorted_keys {V} (d : gmap string V) :
  length (sorted_keys d) = size d.
Proof.
  unfold sorted_keys. rewrite merge_sort_Permutation.
  by rewrite <- size_dom.
Qed.

Lemma NoDup_sorted_keys {V} (d : gmap string V) : NoDup (sorted_keys d).
Proof.
  unfold sorted_keys. rewrite merge_sort_Permutation. apply NoDup_elements.
Qed.

Lemma Sorted_sorted_keys {V} (d : gmap string V) :
  Sorted str_le (sorted_keys d).
Proof. unfold sorted_keys. apply Sorted_merge_sort, _. Qed.

Lemma classify_classified (roles : gset string) :
  roles ⊆ three_roles →
  analyze_users_debug.classify roles ≠ analyze_users_debug.UNCLASSIFIED.
Proof.
  intros Hsub. apply role_subsets in Hsub.
  repeat (apply elem_of_cons in Hsub as [->|Hsub]);
    [.. | by apply elem_of_nil in Hsub].
  all: by vm_compute.
Qed.

Lemma analyze_users_debug_entry_subseteq rows uid :
  uid ∈ sorted_keys (analyze_users_debug.build_users_roles rows) →
  analyze_users_debug.build_users_roles rows !!! uid ⊆ three_roles.
Proof.
  intros [roles Hr]%elem_of_sorted_keys.
  rewrite (lookup_total_correct _ _ _ Hr).
  apply analyze_users_debug_profile in Hr as (_ & _ & ->).
  apply roles_seen_subseteq.
Qed.

Lemma debug_count_user_total c roles :
  analyze_users_debug.classify roles ≠ analyze_users_debug.UNCLASSIFIED →
  debug_total (analyze_users_debug.count_user c roles) = debug_total c + 1.
Proof.
  unfold analyze_users_debug.count_user, debug_total.
  destruct (analyze_users_debug.classify roles); simpl; intros; try lia; done.
Qed.

Lemma debug_count_foldl (users_roles : gmap string (gset string)) ids c :
  (∀ uid, uid ∈ ids → users_roles !!! uid ⊆ three_roles) →
  debug_total
    (foldl (λ c uid, analyze_users_debug.count_user c (users_roles !!! uid)) c ids)
  = debug_total c + length ids.
Proof.
  revert c. induction ids as [|uid ids IH]; intros c Hall; simpl; [lia|].
  rewrite IH by (intros u Hu; apply Hall; by right).
  rewrite debug_count_user_total; [lia|].
  apply classify_classified, Hall. by left.
Qed.

(** In analyze_users_debug, for every summary log: the ids are listed
    in ascending order and without repetition; they are the users that
    have a profile; each of them is given the bucket of its role set,
    which is never UNCLASSIFIED; and the six counters add up to the
    number of unique users. *)
Theorem debug_statistics_add_up (rows : list LogRow) :
  Sorted str_le ((analyze_users_debug.analyze_logs rows).2.*1)
  ∧ NoDup ((analyze_users_debug.analyze_logs rows).2.*1)
  ∧ (∀ uid bucket,
        (uid, bucket) ∈ (analyze_users_debug.analyze_logs rows).2
        ↔ ∃ roles,
            analyze_users_debug.build_users_roles rows !! uid = Some roles
            ∧ bucket = analyze_users_debug.classify roles)
  ∧ (∀ uid bucket,
        (uid, bucket) ∈ (analyze_users_debug.analyze_logs rows).2 →
        bucket ≠ analyze_users_debug.UNCLASSIFIED)
  ∧ debug_total (analyze_users_debug.count_users rows)
    = size (analyze_users_debug.build_users_roles rows).
Proof.
  unfold analyze_users_debug.analyze_logs, analyze_users_debug.count_users.
  simpl.
  set (users_roles := analyze_users_debug.build_users_roles rows).
  assert (((λ uid, (uid, analyze_users_debug.classify (users_roles !!! uid)))
             <$> sorted_keys users_roles).*1 = sorted_keys users_roles) as Hfst.
  { rewrite <- list_fmap_compose. apply list_fmap_id. }
  rewrite Hfst.
  assert (∀ uid bucket,
    (uid, bucket) ∈ ((λ uid, (uid, analyze_users_debug.classify (users_roles !!! uid)))
                       <$> sorted_keys users_roles)
    ↔ ∃ roles, users_roles !! uid = Some roles
               ∧ bucket = analyze_users_debug.classify roles) as Hlist.
  { intros uid bucket. rewrite list_elem_of_fmap. split.
    - intros (u & [= -> ->] & [roles Hr]%elem_of_sorted_keys).
      exists roles. by rewrite (lookup_total_correct _ _ _ Hr).
    - intros (roles & Hr & ->). exists uid.
      rewrite (lookup_total_correct _ _ _ Hr). split; [done|].
      apply elem_of_sorted_keys. eauto. }
  split; [apply Sorted_sorted_keys|].
  split; [apply NoDup_sorted_keys|].
  split; [exact Hlist|]. split.
  - intros uid bucket (roles & Hr & ->)%Hlist.
    apply classify_classified.
    apply analyze_users_debug_profile in Hr as (_ & _ & ->).
    apply roles_seen_subseteq.
  - rewrite debug_count_foldl.
    + simpl. apply length_sorted_keys.
    + apply analyze_users_debug_entry_subseteq.
Qed.

(** ** The valid users of the filter *)

(** The valid users of filter_ingame_logs are the users with a profile
    in analyze_users_debug, as the source comment says: every non-empty,
    non-excluded id of the summary log, whatever its labels. *)
Theorem valid_users_are_profiled_users (summary_rows : list LogRow) :
  filter_ingame_logs.get_valid_users summary_rows
  = dom (analyze_users_debug.build_users_roles summary_rows)
  ∧ ∀ uid, uid ∈ filter_ingame_logs.get_valid_users summary_rows
           ↔ uid ≠ "" ∧ (uid ∉ excluded_users)
             ∧ ∃ row, row ∈ summary_rows ∧ col_userId row = uid.
Proof.
  split.
  - apply set_eq. intros uid.
    rewrite get_valid_users_spec, elem_of_dom. split.
    + intros (Hne & Hex & Hs). eexists.
      apply analyze_users_debug_profile. eauto.
    + intros [roles ([? ?] & ? & _)%analyze_users_debug_profile]. done.
  - intros uid. by rewrite get_valid_users_spec, seen_elem_of.
Qed.

(** Replaces the tests on an explicit role set by their values. *)
Ltac eval_tests :=
  repeat match goal with
    | |- context [bool_decide ?P] =>
        let b := eval vm_compute in (bool_decide P) in
        replace (bool_decide P) with b by (vm_compute; reflexivity)
    | |- context [Nat.eqb (size ?X) ?n] =>
        let b := eval vm_compute in (Nat.eqb (size X) n) in
        replace (Nat.eqb (size X) n) with b by (vm_compute; reflexivity)
    end.

Lemma users_count_user_total c roles :
  roles ⊆ three_roles →
  users_total (analyze_users.count_user c roles)
  = users_total c
    + (if bool_decide (roles = {[ "Athens"; "Mars Colony" ]} ∨ roles = ∅)
       then 0 else 1).
Proof.
  intros Hsub. apply role_subsets in Hsub. destruct c as [a b c d].
  repeat (apply elem_of_cons in Hsub as [->|Hsub]);
    [.. | by apply elem_of_nil in Hsub].
  all: unfold analyze_users.count_user, users_total; eval_tests; simpl; lia.
Qed.

Lemma users_count_foldl (users_roles : gmap string (gset string)) ids c :
  (∀ uid, uid ∈ ids → users_roles !!! uid ⊆ three_roles) →
  users_total
    (foldl (λ c uid, analyze_users.count_user c (users_roles !!! uid)) c ids)
  + length (filter (λ uid, users_roles !!! uid = {[ "Athens"; "Mars Colony" ]}
                           ∨ users_roles !!! uid = ∅) ids)
  = users_total c + length ids.
Proof.
  revert c. induction ids as [|uid ids IH]; intros c Hall; simpl; [lia|].
  rewrite filter_cons.
  assert (∀ u, u ∈ ids → users_roles !!! u ⊆ three_roles) as Hall'
    by (intros u Hu; apply Hall; by right).
  specialize (IH (analyze_users.count_user c (users_roles !!! uid)) Hall').
  rewrite users_count_user_total in IH by (apply Hall; by left).
  destruct (decide (users_roles !!! uid = {[ "Athens"; "Mars Colony" ]}
                    ∨ users_roles !!! uid = ∅)) as [Hd|Hd].
  - rewrite (bool_decide_eq_true_2 _ Hd) in IH. simpl. lia.
  - rewrite (bool_decide_eq_false_2 _ Hd) in IH. lia.
Qed.

(** In analyze_users.py every user moves at most one of the four
    counters, and the users that move none are exactly those whose
    role set is {Athens, Mars Colony} or empty: the four counters and
    the number of those users add up to the number of unique users. *)
Theorem users_statistics_leave_out (rows : list LogRow) :
  users_total (analyze_users.analyze_logs rows).2
  + length (filter (λ uid,
                      (analyze_users.analyze_logs rows).1.1 !!! uid
                        = {[ "Athens"; "Mars Colony" ]}
                      ∨ (analyze_users.analyze_logs rows).1.1 !!! uid = ∅)
                   (analyze_users.analyze_logs rows).1.2)
  = length (analyze_users.analyze_logs rows).1.2
  ∧ length (analyze_users.analyze_logs rows).1.2
    = size (analyze_users.build_users_roles rows)
  ∧ NoDup (analyze_users.analyze_logs rows).1.2.
Proof.
  unfold analyze_users.analyze_logs. simpl.
  split; [|split; [apply length_sorted_keys | apply NoDup_sorted_keys]].
  rewrite users_count_foldl; [done|].
  intros uid [roles Hr]%elem_of_sorted_keys.
  rewrite (lookup_total_correct _ _ _ Hr).
  apply analyze_users_profile in Hr as (_ & _ & ->).
  apply roles_seen_subseteq.
Qed.

(** ** Order and repetition of the rows *)

Lemma roles_seen_ext rows rows' uid :
  (∀ row : LogRow, row ∈ rows ↔ row ∈ rows') →
  roles_seen rows uid = roles_seen rows' uid.
Proof.
  intros Hext. apply set_eq. intros c. rewrite !elem_of_roles_seen.
  split; intros [Hne (row & Hin & Hr)]; (split; [done|]);
    exists row; (split; [by apply Hext|done]).
Qed.

Lemma seen_ext rows rows' uid :
  (∀ row : LogRow, row ∈ rows ↔ row ∈ rows') → seen uid rows ↔ seen uid rows'.
Proof.
  intros Hext. rewrite !seen_elem_of.
  split; intros (row & Hin & Hr); exists row; (split; [by apply Hext|done]).
Qed.

(** The profiles and the valid users depend only on which rows the
    summary log holds, not on their order or on how often a row is
    repeated. *)
Theorem profiles_ignore_order_and_repeats (rows rows' : list LogRow) :
  (∀ row, row ∈ rows ↔ row ∈ rows') →
  analyze_users.build_users_roles rows = analyze_users.build_users_roles rows'
  ∧ analyze_users_debug.build_users_roles rows
    = analyze_users_debug.build_users_roles rows'
  ∧ analyze_day8_completion.build_targets rows
    = analyze_day8_completion.build_targets rows'
  ∧ filter_ingame_logs.get_valid_users rows
    = filter_ingame_logs.get_valid_users rows'.
Proof.
  intros Hext.
  split; [|split; [|split]].
  - apply map_eq. intros uid. apply option_eq. intros roles.
    rewrite !analyze_users_profile.
    by rewrite (seen_ext rows rows' uid Hext), (roles_seen_ext rows rows' uid Hext).
  - apply map_eq. intros uid. apply option_eq. intros roles.
    rewrite !analyze_users_debug_profile.
    by rewrite (seen_ext rows rows' uid Hext), (roles_seen_ext rows rows' uid Hext).
  - apply map_eq. intros uid. apply option_eq. intros roles.
    rewrite !day8_targets.
    by rewrite (roles_seen_ext rows rows' uid Hext).
  - apply set_eq. intros uid. rewrite !get_valid_users_spec.
    by rewrite (seen_ext rows rows' uid Hext).
Qed.

(** The profiles at a summary log and at the same rows reordered, one
    of them repeated. *)
Lemma profiles_ignore_order_and_repeats_witness :
  analyze_users_debug.build_users_roles
    [mkRow "u1" "Athens" "" "" []; mkRow "u1" "Mars Colony" "" "" []]
  = analyze_users_debug.build_users_roles
      [mkRow "u1" "Mars Colony" "" "" []; mkRow "u1" "Athens" "" "" [];
       mkRow "u1" "Mars Colony" "" "" []].
Proof.
  refine (proj1 (proj2 (profiles_ignore_order_and_repeats
    [mkRow "u1" "Athens" "" "" []; mkRow "u1" "Mars Colony" "" "" []]
    [mkRow "u1" "Mars Colony" "" "" []; mkRow "u1" "Athens" "" "" [];
     mkRow "u1" "Mars Colony" "" "" []] _))).
  intros row. rewrite !elem_of_cons, !elem_of_nil. tauto.
Defined.

(** ** What the day-8 scan stores *)

Lemma matched_target_elem_of target_roles label c :
  analyze_day8_completion.matched_target target_roles label = Some c →
  c ∈ target_roles ∧ PyStr.contains c label = true.
Proof.
  intros (_ & _ & _ & ? & ? & _)%matched_target_spec. done.
Qed.

Lemma scan_row_wf users_to_check results row :
  results_wf users_to_check results →
  results_wf users_to_check
    (analyze_day8_completion.scan_row users_to_check results row).
Proof.
  intros Hwf. unfold analyze_day8_completion.scan_row.
  destruct (users_to_check !! col_userId row) as [target_roles|] eqn:Hu;
    [|done].
  destruct (analyze_day8_completion.matched_target target_roles (col_role row))
    as [t|] eqn:Hm; [|done].
  destruct (String.eqb (col_day row) "8"); [|done].
  apply matched_target_elem_of in Hm as [Ht _].
  intros uid by_role.
  destruct (decide (col_userId row = uid)) as [<-|Hne].
  - rewrite lookup_alter_eq.
    destruct (results !! col_userId row) as [old|] eqn:Hold; simpl.
    + rewrite Hold. simpl. intros [= <-].
      split; [apply insert_non_empty|].
      exists target_roles. split; [done|]. intros c b.
      destruct (decide (t = c)) as [<-|Hc].
      * rewrite lookup_insert_eq. by intros [= <-].
      * rewrite lookup_insert_ne by done. intros Hc'.
        destruct (Hwf _ _ Hold) as (_ & tr & Htr & Hall).
        rewrite Hu in Htr. injection Htr as <-. by apply Hall.
    + rewrite lookup_insert_eq. simpl. intros [= <-].
      split; [apply insert_non_empty|].
      exists target_roles. split; [done|]. intros c b.
      destruct (decide (t = c)) as [<-|Hc].
      * rewrite lookup_insert_eq. by intros [= <-].
      * rewrite lookup_insert_ne, lookup_empty by done. done.
  - rewrite lookup_alter_ne by done.
    destruct (results !! col_userId row).
    + apply Hwf.
    + rewrite lookup_insert_ne by done. apply Hwf.
Qed.

(** The day-8 scan stores nothing but marks: an entry of [results]
    belongs to a checked user, is not empty, holds only roles of that
    user's expected set, and every stored value is True. *)
Theorem day8_results_only_marks (users_to_check : gmap string (gset string))
    (ingame_rows : list LogRow) (uid : string) (by_role : gmap string bool) :
  analyze_day8_completion.scan users_to_check ingame_rows !! uid = Some by_role →
  by_role ≠ ∅
  ∧ ∃ target_roles,
      users_to_check !! uid = Some target_roles
      ∧ ∀ c b, by_role !! c = Some b → b = true ∧ c ∈ target_roles.
Proof.
  assert (results_wf users_to_check
            (analyze_day8_completion.scan users_to_check ingame_rows)) as Hwf.
  { unfold analyze_day8_completion.scan.
    induction ingame_rows as [|row rows IH] using rev_ind.
    - intros u r. simpl. by rewrite lookup_empty.
    - rewrite foldl_app. simpl. by apply scan_row_wf. }
  apply Hwf.
Qed.

(** The entry stored for u1 by one matching row of day "8". *)
Lemma day8_results_only_marks_witness :
  analyze_day8_completion.scan {[ "u1" := {[ "Mars Colony" ]} ]}
    [mkRow "u1" "Mars Colony" "8" "" []] !! "u1"
  = Some {[ "Mars Colony" := true ]}
  ∧ ({[ "Mars Colony" := true ]} : gmap string bool) ≠ ∅.
Proof.
  assert (analyze_day8_completion.scan {[ "u1" := {[ "Mars Colony" ]} ]}
            [mkRow "u1" "Mars Colony" "8" "" []] !! "u1"
          = Some {[ "Mars Colony" := true ]}) as Hs by compute_done.
  split; [exact Hs|].
  exact (proj1 (day8_results_only_marks _ _ _ _ Hs)).
Defined.

(** Whether a pair is verified depends only on which rows the in-game
    log holds, not on their order or repetition. *)
Theorem day8_verified_ignores_order (users_to_check : gmap string (gset string))
    (rows rows' : list LogRow) (uid c : string) :
  (∀ row, row ∈ rows ↔ row ∈ rows') →
  analyze_day8_completion.is_verified
    (analyze_day8_completion.scan users_to_check rows) uid c
  = analyze_day8_completion.is_verified
      (analyze_day8_completion.scan users_to_check rows') uid c.
Proof.
  intros Hext. unfold analyze_day8_completion.scan.
  apply eq_true_iff_eq.
  rewrite !is_verified_foldl, is_verified_empty.
  split; (intros [?|(row & Hin & Hm)]; [done|]); right; exists row;
    (split; [by apply Hext|done]).
Qed.

Lemma day8_verified_ignores_order_witness :
  analyze_day8_completion.is_verified
    (analyze_day8_completion.scan {[ "u1" := {[ "Mars Colony" ]} ]}
       [mkRow "u1" "Mars Colony" "8" "" []; mkRow "u1" "Mars Colony" "3" "" []])
    "u1" "Mars Colony"
  = analyze_day8_completion.is_verified
      (analyze_day8_completion.scan {[ "u1" := {[ "Mars Colony" ]} ]}
         [mkRow "u1" "Mars Colony" "3" "" []; mkRow "u1" "Mars Colony" "8" "" []])
      "u1" "Mars Colony".
Proof.
  apply day8_verified_ignores_order.
  intros row. rewrite !elem_of_cons, !elem_of_nil. tauto.
Defined.

(** ** Keys and rows of the max-day scan *)

Lemma max_day_read_row_dom int targets max_days row :
  dom max_days = dom targets →
  dom (analyze_max_day.read_row int targets max_days row) = dom targets.
Proof.
  intros Hdom. unfold analyze_max_day.read_row.
  destruct (targets !! col_userId row) as [marker|] eqn:Ht; [|done].
  repeat case_match; try done.
  rewrite dom_insert_L, Hdom.
  apply elem_of_dom_2 in Ht. set_solver.
Qed.

Lemma max_day_scan_dom int targets rows :
  dom (analyze_max_day.scan int targets rows) = dom targets.
Proof.
  unfold analyze_max_day.scan.
  induction rows as [|row rows IH] using rev_ind.
  - simpl. unfold analyze_max_day.init_max_days. apply dom_fmap_L.
  - rewrite foldl_app. simpl. by apply max_day_read_row_dom.
Qed.

Lemma matching_day_ext int rows rows' uid marker d :
  (∀ row : LogRow, row ∈ rows ↔ row ∈ rows') →
  matching_day int rows uid marker d ↔ matching_day int rows' uid marker d.
Proof.
  intros Hext. unfold matching_day.
  split; intros (row & Hin & Hr); exists row; (split; [by apply Hext|done]).
Qed.

(** The max-day scan keeps one value per target user, so that
    [max_days[uid]] never misses its key; a user that is no target
    never gets a value; and the values depend only on which rows the
    in-game log holds, not on their order or repetition. *)
Theorem max_day_keys_and_order (int : string → option Z)
    (targets : gmap string string)
    (rows rows' : list LogRow) :
  dom (analyze_max_day.scan int targets rows) = dom targets
  ∧ (∀ uid, targets !! uid = None →
            analyze_max_day.scan int targets rows !! uid = None)
  ∧ ((∀ row, row ∈ rows ↔ row ∈ rows') →
     analyze_max_day.scan int targets rows
     = analyze_max_day.scan int targets rows').
Proof.
  split; [apply max_day_scan_dom|]. split.
  - intros uid Hnone. apply not_elem_of_dom.
    rewrite max_day_scan_dom. by apply not_elem_of_dom.
  - intros Hext. apply map_eq. intros uid.
    destruct (targets !! uid) as [marker|] eqn:Ht.
    + destruct (max_day_scan_invariant int targets rows uid marker Ht)
        as (r & -> & Hpos & Hwit & Hmax).
      destruct (max_day_scan_invariant int targets rows' uid marker Ht)
        as (r' & -> & Hpos' & Hwit' & Hmax').
      f_equal. apply Z.le_antisymm.
      * destruct Hwit as [->|Hm]; [done|].
        apply Hmax'. by apply (matching_day_ext int rows rows').
      * destruct Hwit' as [->|Hm]; [done|].
        apply Hmax. by apply (matching_day_ext int rows rows').
    + transitivity (@None Z); [|symmetry]; apply not_elem_of_dom;
        rewrite max_day_scan_dom; by apply not_elem_of_dom.
Qed.

(** ** The date range of the filter *)

Section DateRange.

Context {datetime : Type}.
Variable fromisoformat : string → option datetime.
Variable lt : datetime → datetime → bool.
Hypothesis lt_irrefl : ∀ a, lt a a = false.
Hypothesis lt_trans : ∀ a b c, lt a b = true → lt b c = true → lt a c = true.
Variable valid_users : gset string.

Abbreviation dt_lt := (λ a b : datetime, Some (lt a b)).

Lemma range_of_nil : range_of lt [] None None.
Proof.
  unfold range_of. repeat split; try done; intros m Hm; discriminate.
Qed.

Lemma lt_false_trans a b c : lt a b = true → lt c b = false → lt c a = false.
Proof.
  intros Hab Hcb. destruct (lt c a) eqn:Hca; [|done].
  rewrite (lt_trans c a b Hca Hab) in Hcb. done.
Qed.

Lemma lt_false_trans_r a b c : lt a b = true → lt a c = false → lt b c = false.
Proof.
  intros Hab Hac. destruct (lt b c) eqn:Hbc; [|done].
  rewrite (lt_trans a b c Hab Hbc) in Hac. done.
Qed.

(** One parsed timestamp more. *)
Lemma range_of_snoc ts mn mx t :
  range_of lt ts mn mx →
  range_of lt (ts ++ [t])
    (match mn with
     | None => Some t
     | Some m => if lt t m then Some t else Some m
     end)
    (match mx with
     | None => Some t
     | Some m => if lt m t then Some t else Some m
     end).
Proof.
  intros (Hmn & Hmx & Hmin & Hmax). unfold range_of.
  split; [|split; [|split]].
  - split; [by repeat case_match|]. intros H. by destruct ts.
  - split; [by repeat case_match|]. intros H. by destruct ts.
  - intros m' Hm'. destruct mn as [m|].
    + destruct (Hmin m eq_refl) as [Hin Hle].
      destruct (lt t m) eqn:Htm; injection Hm' as <-.
      * split; [set_solver|]. intros t' [Ht'| ->%list_elem_of_singleton]%elem_of_app.
        -- eapply lt_false_trans; [exact Htm|]. by apply Hle.
        -- apply lt_irrefl.
      * split; [set_solver|]. intros t' [Ht'| ->%list_elem_of_singleton]%elem_of_app.
        -- by apply Hle.
        -- done.
    + injection Hm' as <-. rewrite (proj1 Hmn eq_refl). simpl.
      split; [set_solver|]. intros t' ->%list_elem_of_singleton. apply lt_irrefl.
  - intros m' Hm'. destruct mx as [m|].
    + destruct (Hmax m eq_refl) as [Hin Hle].
      destruct (lt m t) eqn:Htm; injection Hm' as <-.
      * split; [set_solver|]. intros t' [Ht'| ->%list_elem_of_singleton]%elem_of_app.
        -- eapply lt_false_trans_r; [exact Htm|]. by apply Hle.
        -- apply lt_irrefl.
      * split; [set_solver|]. intros t' [Ht'| ->%list_elem_of_singleton]%elem_of_app.
        -- by apply Hle.
        -- done.
    + injection Hm' as <-. rewrite (proj1 Hmx eq_refl). simpl.
      split; [set_solver|]. intros t' ->%list_elem_of_singleton. apply lt_irrefl.
Qed.

Lemma parsed_timestamps_cons row rows :
  parsed_timestamps fromisoformat valid_users (row :: rows)
  = (if decide (col_userId row ∈ valid_users)
     then option_list
            (fromisoformat (PyStr.replace_Z "+00:00" (col_timestamp row)))
     else [])
    ++ parsed_timestamps fromisoformat valid_users rows.
Proof.
  unfold parsed_timestamps. rewrite filter_cons.
  case_decide; [|done]. simpl.
  by destruct (fromisoformat _).
Qed.

Lemma read_row_range row st ts :
  range_of lt ts (filter_ingame_logs.min_ts st) (filter_ingame_logs.max_ts st) →
  ∃ st1, filter_ingame_logs.read_row fromisoformat dt_lt valid_users st row
         = Some st1
    ∧ range_of lt
        (ts ++ if decide (col_userId row ∈ valid_users)
               then option_list
                      (fromisoformat
                         (PyStr.replace_Z "+00:00" (col_timestamp row)))
               else [])
        (filter_ingame_logs.min_ts st1) (filter_ingame_logs.max_ts st1).
Proof.
  intros Hr. unfold filter_ingame_logs.read_row.
  destruct (decide (col_userId row ∈ valid_users)) as [Hv|Hv].
  - rewrite bool_decide_eq_true_2 by done.
    unfold filter_ingame_logs.track.
    destruct (fromisoformat (PyStr.replace_Z "+00:00" (col_timestamp row)))
      as [t|] eqn:Hp; simpl.
    + apply (range_of_snoc _ _ _ t) in Hr.
      destruct (filter_ingame_logs.min_ts st) as [mn|],
               (filter_ingame_logs.max_ts st) as [mx|]; simpl;
        eexists; (split; [reflexivity|]); simpl; exact Hr.
    + eexists. split; [reflexivity|]. simpl. by rewrite app_nil_r.
  - rewrite bool_decide_eq_false_2 by done.
    eexists. split; [reflexivity|]. simpl. by rewrite app_nil_r.
Qed.

Lemma read_rows_range rows st ts :
  range_of lt ts (filter_ingame_logs.min_ts st) (filter_ingame_logs.max_ts st) →
  ∃ st', filter_ingame_logs.read_rows fromisoformat dt_lt valid_users st rows
         = Some st'
    ∧ range_of lt (ts ++ parsed_timestamps fromisoformat valid_users rows)
        (filter_ingame_logs.min_ts st') (filter_ingame_logs.max_ts st').
Proof.
  revert st ts. induction rows as [|row rows IH]; intros st ts Hr; simpl.
  - exists st. split; [done|]. unfold parsed_timestamps. simpl.
    by rewrite app_nil_r.
  - destruct (read_row_range row st ts Hr) as (st1 & Hrow & Hr1).
    destruct (IH st1 _ Hr1) as (st' & Hrun & Hr').
    exists st'. rewrite Hrow. simpl. split; [exact Hrun|].
    rewrite parsed_timestamps_cons. by rewrite app_assoc.
Qed.

End DateRange.

(** When the timestamps are compared by a strict order, the filter run
    ends normally, and its date range is taken over the retained rows
    whose timestamp parses (with every Z read as +00:00): both ends are
    undetermined exactly when no such row exists; otherwise the minimum
    is one of those timestamps with none below it, and the maximum is
    one of them with none above it.  Removed rows and rows with an
    unparsable timestamp play no part. *)
Theorem filter_date_range {datetime : Type}
    (fromisoformat : string → option datetime)
    (lt : datetime → datetime → bool)
    (valid_users : gset string) (rows : list LogRow) :
  (∀ a, lt a a = false) →
  (∀ a b c, lt a b = true → lt b c = true → lt a c = true) →
  ∃ st,
    filter_ingame_logs.read_rows fromisoformat (λ a b, Some (lt a b))
      valid_users filter_ingame_logs.init rows = Some st
    ∧ (filter_ingame_logs.min_ts st = None
       ↔ parsed_timestamps fromisoformat valid_users rows = [])
    ∧ (filter_ingame_logs.max_ts st = None
       ↔ parsed_timestamps fromisoformat valid_users rows = [])
    ∧ (∀ m, filter_ingame_logs.min_ts st = Some m →
            m ∈ parsed_timestamps fromisoformat valid_users rows
            ∧ ∀ t, t ∈ parsed_timestamps fromisoformat valid_users rows →
                   lt t m = false)
    ∧ (∀ m, filter_ingame_logs.max_ts st = Some m →
            m ∈ parsed_timestamps fromisoformat valid_users rows
            ∧ ∀ t, t ∈ parsed_timestamps fromisoformat valid_users rows →
                   lt m t = false).
Proof.
  intros Hirr Htrans.
  destruct (read_rows_range fromisoformat lt Hirr Htrans valid_users rows
              filter_ingame_logs.init [] (range_of_nil lt))
    as (st & Hrun & Hrange).
  exists st. split; [done|]. exact Hrange.
Qed.

(** The date range of three retained rows, the timestamps read as
    integers: the second does not parse. *)
Lemma filter_date_range_witness :
  ∃ st,
    filter_ingame_logs.read_rows PyStr.int (λ a b, Some (Z.ltb a b))
      {[ "u3" ]} filter_ingame_logs.init
      [mkRow "u3" "Athens" "1" "20" []; mkRow "u3" "Athens" "1" "soon" [];
       mkRow "u3" "Athens" "2" "10" []; mkRow "u4" "Athens" "2" "5" []]
    = Some st
    ∧ filter_ingame_logs.min_ts st = Some 10%Z
    ∧ filter_ingame_logs.max_ts st = Some 20%Z.
Proof.
  destruct (filter_date_range PyStr.int Z.ltb {[ "u3" ]}
      [mkRow "u3" "Athens" "1" "20" []; mkRow "u3" "Athens" "1" "soon" [];
       mkRow "u3" "Athens" "2" "10" []; mkRow "u4" "Athens" "2" "5" []]
      Z.ltb_irrefl
      (λ a b c Hab Hbc, proj2 (Z.ltb_lt a c)
         (Z.lt_trans a b c (proj1 (Z.ltb_lt a b) Hab) (proj1 (Z.ltb_lt b c) Hbc))))
    as (st & Hrun & _).
  exists st. split; [exact Hrun|].
  vm_compute in Hrun. injection Hrun as <-. split; reflexivity.
Defined.

(** ** Filtering a filtered log *)

Lemma rows_of_written_file header rows :
  rows_of_file (filter_ingame_logs.HeaderLine header
                :: (filter_ingame_logs.DataLine <$> rows)) = rows.
Proof.
  unfold rows_of_file. simpl. induction rows as [|row rows IH]; [done|].
  simpl. f_equal. exact IH.
Qed.

Section FilterAgain.

Context {datetime : Type}.
Variable fromisoformat : string → option datetime.
Variable dt_lt : datetime → datetime → option bool.
Variable valid_users : gset string.

(** The run over the retained rows alone goes through the same states,
    the two counters apart. *)
Lemma read_rows_retained rows st su st1 :
  filter_ingame_logs.kept_rows su = filter_ingame_logs.kept_rows st →
  filter_ingame_logs.min_ts su = filter_ingame_logs.min_ts st →
  filter_ingame_logs.max_ts su = filter_ingame_logs.max_ts st →
  filter_ingame_logs.read_rows fromisoformat dt_lt valid_users st rows
    = Some st1 →
  ∃ su1,
    filter_ingame_logs.read_rows fromisoformat dt_lt valid_users su
      (filter (λ row, col_userId row ∈ valid_users) rows) = Some su1
    ∧ filter_ingame_logs.kept_rows su1 = filter_ingame_logs.kept_rows st1
    ∧ filter_ingame_logs.min_ts su1 = filter_ingame_logs.min_ts st1
    ∧ filter_ingame_logs.max_ts su1 = filter_ingame_logs.max_ts st1
    ∧ filter_ingame_logs.removed_count su1 = filter_ingame_logs.removed_count su
    ∧ filter_ingame_logs.total_count su1
      = filter_ingame_logs.total_count su
        + length (filter (λ row, col_userId row ∈ valid_users) rows).
Proof.
  revert st su. induction rows as [|row rows IH]; intros st su Hk Hmn Hmx; simpl.
  - intros [= <-]. exists su. repeat split; try done; lia.
  - rewrite filter_cons.
    unfold filter_ingame_logs.read_row at 1.
    destruct (decide (col_userId row ∈ valid_users)) as [Hv|Hv].
    + rewrite bool_decide_eq_true_2 by done.
      destruct (filter_ingame_logs.track fromisoformat dt_lt
                  (filter_ingame_logs.min_ts st) (filter_ingame_logs.max_ts st)
                  (col_timestamp row)) as [[mn mx]|] eqn:Ht; simpl;
        [|discriminate].
      intros Hrun. simpl.
      unfold filter_ingame_logs.read_row at 1.
      rewrite bool_decide_eq_true_2 by done.
      rewrite Hmn, Hmx, Ht. simpl.
      eapply IH in Hrun as (su1 & Hrun' & ? & ? & ? & Hrem & Htot);
        [|shelve..].
      exists su1. split; [exact Hrun'|]. simpl in *.
      repeat split; try done. lia.
      Unshelve. all: simpl; congruence.
    + rewrite bool_decide_eq_false_2 by done. simpl.
      intros Hrun. eapply IH in Hrun; [exact Hrun|done..].
Qed.

End FilterAgain.

(** Running filter_ingame_logs on the file it has written, with the
    same summary log, ends normally, removes nothing, and writes the
    same file again with the same date range. *)
Theorem filter_twice {datetime : Type}
    (fromisoformat : string → option datetime)
    (dt_lt : datetime → datetime → option bool)
    (summary_rows : list LogRow) (header : list string)
    (ingame_rows : list LogRow)
    (st : filter_ingame_logs.State datetime)
    (file : list filter_ingame_logs.CsvLine) :
  filter_ingame_logs.filter_ingame_logs fromisoformat dt_lt
    summary_rows header ingame_rows = Some (st, file) →
  ∃ st',
    filter_ingame_logs.filter_ingame_logs fromisoformat dt_lt
      summary_rows header (rows_of_file file) = Some (st', file)
    ∧ filter_ingame_logs.removed_count st' = 0
    ∧ filter_ingame_logs.kept_rows st' = filter_ingame_logs.kept_rows st
    ∧ filter_ingame_logs.total_count st'
      = length (filter_ingame_logs.kept_rows st)
    ∧ filter_ingame_logs.min_ts st' = filter_ingame_logs.min_ts st
    ∧ filter_ingame_logs.max_ts st' = filter_ingame_logs.max_ts st.
Proof.
  intros Hrun.
  pose proof (filter_ingame_logs_file _ _ _ _ _ _ _ Hrun) as Hfile.
  unfold filter_ingame_logs.filter_ingame_logs in *.
  destruct (filter_ingame_logs.read_rows fromisoformat dt_lt
              (filter_ingame_logs.get_valid_users summary_rows)
              filter_ingame_logs.init ingame_rows) as [st0|] eqn:Hrows;
    simpl in Hrun; [|discriminate].
  injection Hrun as -> _.
  pose proof (read_rows_effect _ _ _ _ _ _ Hrows) as (_ & Hkept & _).
  simpl in Hkept.
  destruct (read_rows_retained fromisoformat dt_lt _ ingame_rows
              filter_ingame_logs.init filter_ingame_logs.init st
              eq_refl eq_refl eq_refl Hrows)
    as (st' & Hrun' & Hk & Hmn & Hmx & Hrem & Htot).
  exists st'. rewrite Hfile at 1. rewrite rows_of_written_file, Hrun'. simpl.
  change (foldl filter_ingame_logs.write_step ?f ?l)
    with (filter_ingame_logs.run_steps f l).
  rewrite run_write_rows. simpl.
  rewrite Hk, Hkept, <- Hfile.
  repeat split; try done.
Qed.

(** A log of two rows filtered once, then once more. *)
Lemma filter_twice_witness :
  ∃ st',
    filter_ingame_logs.filter_ingame_logs
      (λ ts, Some ts) (λ a b, Some (String.ltb a b))
      [mkRow "u3" "Athens" "" "" []] ["userId"; "role"; "day"; "timestamp"]
      (rows_of_file
         [filter_ingame_logs.HeaderLine ["userId"; "role"; "day"; "timestamp"];
          filter_ingame_logs.DataLine
            (mkRow "u3" "Athens" "1" "2024-11-20T10:00:00Z" [])])
    = Some
        (st',
         [filter_ingame_logs.HeaderLine ["userId"; "role"; "day"; "timestamp"];
          filter_ingame_logs.DataLine
            (mkRow "u3" "Athens" "1" "2024-11-20T10:00:00Z" [])])
    ∧ filter_ingame_logs.removed_count st' = 0.
Proof.
  destruct (filter_twice (λ ts, Some ts) (λ a b, Some (String.ltb a b))
      [mkRow "u3" "Athens" "" "" []] ["userId"; "role"; "day"; "timestamp"]
      [mkRow "yoav@tau.ac.il" "Athens" "1" "2024-11-22T08:30:00+00:00" [];
       mkRow "u3" "Athens" "1" "2024-11-20T10:00:00Z" []]
      (filter_ingame_logs.mkState string
         [mkRow "u3" "Athens" "1" "2024-11-20T10:00:00Z" []] 1 2
         (Some "2024-11-20T10:00:00+00:00") (Some "2024-11-20T10:00:00+00:00"))
      [filter_ingame_logs.HeaderLine ["userId"; "role"; "day"; "timestamp"];
       filter_ingame_logs.DataLine
         (mkRow "u3" "Athens" "1" "2024-11-20T10:00:00Z" [])])
    as (st' & Hrun & Hrem & _).
  - vm_compute. reflexivity.
  - exists st'. split; [exact Hrun | exact Hrem].
Defined.

(** ** The scans without day filter *)

Lemma elem_of_get_set_add_to_entry d uid role uid' c :
  c ∈ get_set (add_to_entry d uid role) uid'
  ↔ c ∈ get_set d uid' ∨ (uid = uid' ∧ c = role).
Proof.
  unfold add_to_entry, setdefault_empty.
  destruct (decide (uid = uid')) as [<-|Hne].
  - unfold get_set at 1. rewrite lookup_add_role. simpl.
    rewrite elem_of_union, elem_of_singleton. tauto.
  - unfold get_set. rewrite lookup_add_role_ne by done.
    split; [tauto|]. intros [?|[? _]]; done.
Qed.

Lemma add_to_entry_nonempty d uid role uid' :
  d !! uid' ≠ Some ∅ → add_to_entry d uid role !! uid' ≠ Some ∅.
Proof.
  intros Hd. unfold add_to_entry, setdefault_empty.
  destruct (decide (uid = uid')) as [<-|Hne].
  - rewrite lookup_add_role. intros [= He]. set_solver.
  - by rewrite lookup_add_role_ne.
Qed.

Lemma setdefault_add_to_entry d uid role :
  setdefault_empty (add_to_entry d uid role) uid = add_to_entry d uid role.
Proof.
  unfold setdefault_empty at 1.
  assert (is_Some (add_to_entry d uid role !! uid)) as [roles ->]; [|done].
  unfold add_to_entry, setdefault_empty. rewrite lookup_add_role. by eexists.
Qed.

(** The users picked by the three scripts that look at the
    Athens-only users. *)
Lemma athens_only_test (roles : gset string) :
  roles ⊆ three_roles → roles ≠ ∅ →
  "Athens" ∈ roles ∧ ("North America" ∉ roles) ∧ ("Mars Colony" ∉ roles)
  ↔ roles = {[ "Athens" ]}.
Proof.
  intros Hsub Hne. apply role_subsets in Hsub.
  repeat (apply elem_of_cons in Hsub as [->|Hsub]);
    [.. | by apply elem_of_nil in Hsub]; [done|..].
  all: clear Hne; split; intros Hcase; decide_roles.
Qed.

Lemma elem_of_athens_only_users summary_rows uid :
  uid ∈ analyze_missing_summary.athens_only_users
          (analyze_day8_completion.build_targets summary_rows)
  ↔ analyze_day8_completion.build_targets summary_rows !! uid
    = Some {[ "Athens" ]}.
Proof.
  unfold analyze_missing_summary.athens_only_users.
  rewrite elem_of_dom. split.
  - intros [roles [Hr Ht]%map_lookup_filter_Some]. simpl in Ht.
    destruct (day8_targets_subseteq _ _ _ Hr) as [Hsub Hne].
    apply (athens_only_test roles Hsub Hne) in Ht. by subst.
  - intros Hr. exists {[ "Athens" ]}. apply map_lookup_filter_Some.
    split; [done|]. simpl.
    destruct (day8_targets_subseteq _ _ _ Hr) as [Hsub Hne].
    by apply (athens_only_test _ Hsub Hne).
Qed.

Lemma elem_of_athens_only summary_rows uid :
  uid ∈ verify_discrepancy.athens_only
          (analyze_day8_completion.build_targets summary_rows)
  ↔ analyze_day8_completion.build_targets summary_rows !! uid
    = Some {[ "Athens" ]}.
Proof.
  unfold verify_discrepancy.athens_only.
  rewrite merge_sort_Permutation, elem_of_elements.
  apply elem_of_athens_only_users.
Qed.

(** *** verify_discrepancy.py *)

Lemma verify_scan_row_eq athens_only d row :
  verify_discrepancy.scan_row athens_only d row
  = if bool_decide (col_userId row ∈ athens_only) then
      let d1 := if PyStr.contains "North America" (col_role row)
                then add_to_entry d (col_userId row) "North America" else d in
      if PyStr.contains "Mars Colony" (col_role row)
      then add_to_entry d1 (col_userId row) "Mars Colony" else d1
    else d.
Proof.
  unfold verify_discrepancy.scan_row.
  case_bool_decide; [|done].
  destruct (PyStr.contains "North America" (col_role row)),
           (PyStr.contains "Mars Colony" (col_role row)); simpl; try done.
  unfold add_to_entry at 1. by rewrite setdefault_add_to_entry.
Qed.

Lemma verify_scan_row_elem_of athens_only d row uid c :
  c ∈ get_set (verify_discrepancy.scan_row athens_only d row) uid
  ↔ c ∈ get_set d uid
    ∨ (col_userId row = uid ∧ uid ∈ athens_only
       ∧ (c = "North America" ∨ c = "Mars Colony")
       ∧ PyStr.contains c (col_role row) = true).
Proof.
  rewrite verify_scan_row_eq.
  case_bool_decide as Hao.
  2: { split; [tauto|]. intros [?|(<- & ? & _)]; done. }
  destruct (PyStr.contains "North America" (col_role row)) eqn:Hn,
           (PyStr.contains "Mars Colony" (col_role row)) eqn:Hm; simpl;
    rewrite ?elem_of_get_set_add_to_entry.
  - split.
    + intros [[?|[<- ->]]|[<- ->]]; [tauto|right..]; repeat split; eauto.
    + intros [?|(<- & _ & [->| ->] & _)]; tauto.
  - split.
    + intros [?|[<- ->]]; [tauto|right]; repeat split; eauto.
    + intros [?|(<- & _ & [->| ->] & Hc)]; [tauto|tauto|congruence].
  - split.
    + intros [?|[<- ->]]; [tauto|right]; repeat split; eauto.
    + intros [?|(<- & _ & [->| ->] & Hc)]; [tauto|congruence|tauto].
  - split; [tauto|]. intros [?|(<- & _ & [->| ->] & Hc)]; [done|congruence..].
Qed.

Lemma verify_scan_row_nonempty athens_only d row uid :
  d !! uid ≠ Some ∅ →
  verify_discrepancy.scan_row athens_only d row !! uid ≠ Some ∅.
Proof.
  intros Hd. rewrite verify_scan_row_eq.
  case_bool_decide; [|done].
  repeat case_match; simpl; repeat apply add_to_entry_nonempty; done.
Qed.

Lemma verify_all_elem_of (summary_rows ingame_rows : list LogRow)
    (uid c : string) :
  c ∈ get_set (verify_discrepancy.verify_all summary_rows ingame_rows) uid
  ↔ analyze_day8_completion.build_targets summary_rows !! uid
      = Some {[ "Athens" ]}
    ∧ (c = "North America" ∨ c = "Mars Colony")
    ∧ ∃ row, row ∈ ingame_rows ∧ col_userId row = uid
             ∧ PyStr.contains c (col_role row) = true.
Proof.
  unfold verify_discrepancy.verify_all.
  rewrite verify_discrepancy_same_loop, <- elem_of_athens_only.
  generalize (verify_discrepancy.athens_only
                (analyze_day8_completion.build_targets summary_rows)).
  intros ao.
  induction ingame_rows as [|row rows IH] using rev_ind.
  - simpl. unfold get_set. rewrite lookup_empty. simpl.
    split; [set_solver|]. intros (_ & _ & row & Hin & _).
    by apply elem_of_nil in Hin.
  - rewrite foldl_app. simpl. rewrite verify_scan_row_elem_of, IH. split.
    + intros [(Hao & Hc & row' & Hin & Hr)|(Hu & Hao & Hc & Hr)].
      * split; [done|]. split; [done|]. exists row'.
        split; [apply elem_of_app; by left|done].
      * split; [done|]. split; [done|]. exists row.
        split; [apply elem_of_app; right; by apply list_elem_of_singleton|done].
    + intros (Hao & Hc & row' & Hin & Hu & Hr).
      apply elem_of_app in Hin as [Hin| ->%list_elem_of_singleton].
      * left. eauto 10.
      * right. done.
Qed.

(** verify_discrepancy.py reports, for a user, exactly the markers
    among North America and Mars Colony that some in-game row of the
    user contains, and only for users whose summary profile is exactly
    {Athens}; a label with both markers counts for both; no user is
    reported with an empty set. *)
Theorem verify_all_extra_logs (summary_rows ingame_rows : list LogRow)
    (uid c : string) :
  (c ∈ get_set (verify_discrepancy.verify_all summary_rows ingame_rows) uid
   ↔ verify_discrepancy.build_users_summary_roles summary_rows !! uid
       = Some {[ "Athens" ]}
     ∧ (c = "North America" ∨ c = "Mars Colony")
     ∧ ∃ row, row ∈ ingame_rows ∧ col_userId row = uid
              ∧ PyStr.contains c (col_role row) = true)
  ∧ verify_discrepancy.verify_all summary_rows ingame_rows !! uid ≠ Some ∅.
Proof.
  split; [apply verify_all_elem_of|].
  unfold verify_discrepancy.verify_all.
  induction ingame_rows as [|row rows IH] using rev_ind.
  - simpl. by rewrite lookup_empty.
  - rewrite foldl_app. simpl. by apply verify_scan_row_nonempty.
Qed.

(** *** analyze_missing_summary.py *)





(** *** analyze_comprehensive_discrepancies.py *)

Lemma group_tests (roles : gset string) :
  roles ⊆ three_roles → roles ≠ ∅ →
  (analyze_comprehensive_discrepancies.group_of roles
     = Some analyze_comprehensive_discrepancies.athens_na_only
   ↔ roles = {[ "Athens"; "North America" ]})
  ∧ (analyze_comprehensive_discrepancies.group_of roles
       = Some analyze_comprehensive_discrepancies.athens_mars_only
     ↔ roles = {[ "Athens"; "Mars Colony" ]})
  ∧ (analyze_comprehensive_discrepancies.group_of roles
       = Some analyze_comprehensive_discrepancies.no_athens
     ↔ "Athens" ∉ roles)
  ∧ (analyze_comprehensive_discrepancies.group_of roles = None
     ↔ roles = {[ "Athens" ]} ∨ roles = three_roles).
Proof.
  intros Hsub Hne. apply role_subsets in Hsub.
  repeat (apply elem_of_cons in Hsub as [->|Hsub]);
    [.. | by apply elem_of_nil in Hsub]; [done|..].
  all: clear Hne; (split; [|split; [|split]]); (split; intros Hcase; decide_roles).
Qed.

Lemma elem_of_users_in g summary_rows uid :
  uid ∈ analyze_comprehensive_discrepancies.users_in g
          (analyze_day8_completion.build_targets summary_rows)
  ↔ ∃ roles,
      analyze_day8_completion.build_targets summary_rows !! uid = Some roles
      ∧ analyze_comprehensive_discrepancies.group_of roles = Some g.
Proof.
  unfold analyze_comprehensive_discrepancies.users_in.
  rewrite elem_of_dom. split.
  - intros [roles [Hr Hg]%map_lookup_filter_Some]. eauto.
  - intros (roles & Hr & Hg). exists roles. by apply map_lookup_filter_Some.
Qed.

(** The three groups of analyze_comprehensive_discrepancies, by the
    summary profile: Athens with North America only, Athens with Mars
    Colony only, and every profile without Athens.  No user is in two
    groups, and the users in no group are those with exactly Athens or
    with all three roles. *)
Theorem comprehensive_groups (summary_rows : list LogRow) (uid : string) :
  (uid ∈ analyze_comprehensive_discrepancies.users_in
           analyze_comprehensive_discrepancies.athens_na_only
           (analyze_comprehensive_discrepancies.build_users_summary_roles
              summary_rows)
   ↔ analyze_comprehensive_discrepancies.build_users_summary_roles
       summary_rows !! uid = Some {[ "Athens"; "North America" ]})
  ∧ (uid ∈ analyze_comprehensive_discrepancies.users_in
             analyze_comprehensive_discrepancies.athens_mars_only
             (analyze_comprehensive_discrepancies.build_users_summary_roles
                summary_rows)
     ↔ analyze_comprehensive_discrepancies.build_users_summary_roles
         summary_rows !! uid = Some {[ "Athens"; "Mars Colony" ]})
  ∧ (uid ∈ analyze_comprehensive_discrepancies.users_in
             analyze_comprehensive_discrepancies.no_athens
             (analyze_comprehensive_discrepancies.build_users_summary_roles
                summary_rows)
     ↔ ∃ roles,
         analyze_comprehensive_discrepancies.build_users_summary_roles
           summary_rows !! uid = Some roles
         ∧ "Athens" ∉ roles)
  ∧ (∀ g g',
        uid ∈ analyze_comprehensive_discrepancies.users_in g
                (analyze_comprehensive_discrepancies.build_users_summary_roles
                   summary_rows) →
        uid ∈ analyze_comprehensive_discrepancies.users_in g'
                (analyze_comprehensive_discrepancies.build_users_summary_roles
                   summary_rows) →
        g = g')
  ∧ ((∀ g, uid ∉ analyze_comprehensive_discrepancies.users_in g
                   (analyze_comprehensive_discrepancies.build_users_summary_roles
                      summary_rows))
     ↔ ∀ roles,
         analyze_comprehensive_discrepancies.build_users_summary_roles
           summary_rows !! uid = Some roles →
         roles = {[ "Athens" ]} ∨ roles = three_roles).
Proof.
  change (analyze_comprehensive_discrepancies.build_users_summary_roles
            summary_rows)
    with (analyze_day8_completion.build_targets summary_rows).
  split; [|split; [|split; [|split]]].
  - rewrite elem_of_users_in.
    etrans; [apply (lookup_targets_iff _
                      (λ roles, roles = {[ "Athens"; "North America" ]}));
             intros roles Hsub Hne; apply (group_tests roles Hsub Hne)|].
    naive_solver.
  - rewrite elem_of_users_in.
    etrans; [apply (lookup_targets_iff _
                      (λ roles, roles = {[ "Athens"; "Mars Colony" ]}));
             intros roles Hsub Hne; apply (group_tests roles Hsub Hne)|].
    naive_solver.
  - rewrite elem_of_users_in.
    apply (lookup_targets_iff _ (λ roles, "Athens" ∉ roles)).
    intros roles Hsub Hne. apply (group_tests roles Hsub Hne).
  - intros g g' (roles & Hr & Hg)%elem_of_users_in
                (roles' & Hr' & Hg')%elem_of_users_in.
    congruence.
  - split.
    + intros Hnone roles Hr.
      destruct (day8_targets_subseteq _ _ _ Hr) as [Hsub Hne].
      apply (group_tests roles Hsub Hne).
      destruct (analyze_comprehensive_discrepancies.group_of roles)
        as [g|] eqn:Hg; [|done].
      exfalso. apply (Hnone g), elem_of_users_in. eauto.
    + intros Hall g (roles & Hr & Hg)%elem_of_users_in.
      destruct (day8_targets_subseteq _ _ _ Hr) as [Hsub Hne].
      apply Hall, (group_tests roles Hsub Hne) in Hr. congruence.
Qed.

Lemma users_in_nonempty_id g summary_rows uid :
  uid ∈ analyze_comprehensive_discrepancies.users_in g
          (analyze_day8_completion.build_targets summary_rows) →
  PyStr.is_empty uid = false.
Proof.
  intros (roles & ([Hne _] & _)%day8_targets & _)%elem_of_users_in.
  by apply is_empty_false.
Qed.

(** One row of the scan, dict by dict. *)
Lemma comprehensive_scan_row_elem_of summary_rows found row uid c :
  let users_summary_roles := analyze_day8_completion.build_targets summary_rows in
  let found' :=
    analyze_comprehensive_discrepancies.scan_row users_summary_roles found row in
  (c ∈ get_set (analyze_comprehensive_discrepancies.found_mars_for_athens_na found') uid
   ↔ c ∈ get_set (analyze_comprehensive_discrepancies.found_mars_for_athens_na found) uid
     ∨ (col_userId row = uid
        ∧ uid ∈ analyze_comprehensive_discrepancies.users_in
                  analyze_comprehensive_discrepancies.athens_na_only
                  users_summary_roles
        ∧ c = "Mars Colony"
        ∧ PyStr.contains "Mars Colony" (col_role row) = true))
  ∧ (c ∈ get_set (analyze_comprehensive_discrepancies.found_na_for_athens_mars found') uid
     ↔ c ∈ get_set (analyze_comprehensive_discrepancies.found_na_for_athens_mars found) uid
       ∨ (col_userId row = uid
          ∧ uid ∈ analyze_comprehensive_discrepancies.users_in
                    analyze_comprehensive_discrepancies.athens_mars_only
                    users_summary_roles
          ∧ c = "North America"
          ∧ PyStr.contains "North America" (col_role row) = true))
  ∧ (c ∈ get_set (analyze_comprehensive_discrepancies.found_roles_for_no_athens found') uid
     ↔ c ∈ get_set (analyze_comprehensive_discrepancies.found_roles_for_no_athens found) uid
       ∨ (col_userId row = uid
          ∧ uid ∈ analyze_comprehensive_discrepancies.users_in
                    analyze_comprehensive_discrepancies.no_athens
                    users_summary_roles
          ∧ c ≠ "Other"
          ∧ get_role_category (col_role row) = c)).
Proof.
  intros users_summary_roles found'. subst found'.
  unfold analyze_comprehensive_discrepancies.scan_row.
  destruct (PyStr.is_empty (col_userId row)) eqn:He.
  { split; [|split]; (split; [tauto|]);
      intros [?|(<- & Hin%users_in_nonempty_id & _)]; try done; congruence. }
  simpl. split; [|split].
  - case_bool_decide as Hg; simpl;
      [destruct (PyStr.contains "Mars Colony" (col_role row)) eqn:Hm|];
      rewrite ?elem_of_get_set_add_to_entry.
    + split; [intros [?|[<- ->]]; tauto|]. intros [?|(<- & _ & -> & _)]; tauto.
    + split; [tauto|]. intros [?|(<- & _ & _ & ?)]; done.
    + split; [tauto|]. intros [?|(<- & ? & _)]; done.
  - case_bool_decide as Hg; simpl;
      [destruct (PyStr.contains "North America" (col_role row)) eqn:Hm|];
      rewrite ?elem_of_get_set_add_to_entry.
    + split; [intros [?|[<- ->]]; tauto|]. intros [?|(<- & _ & -> & _)]; tauto.
    + split; [tauto|]. intros [?|(<- & _ & _ & ?)]; done.
    + split; [tauto|]. intros [?|(<- & ? & _)]; done.
  - case_bool_decide as Hg; simpl.
    2: { split; [tauto|]. intros [?|(<- & ? & _)]; done. }
    unfold get_role_category.
    destruct (PyStr.contains "Athens" (col_role row));
      [|destruct (PyStr.contains "North America" (col_role row));
        [|destruct (PyStr.contains "Mars Colony" (col_role row))]];
      rewrite ?elem_of_get_set_add_to_entry.
    + split; [intros [?|[<- ->]]; [tauto|right; done]|].
      intros [?|(<- & _ & _ & <-)]; tauto.
    + split; [intros [?|[<- ->]]; [tauto|right; done]|].
      intros [?|(<- & _ & _ & <-)]; tauto.
    + split; [intros [?|[<- ->]]; [tauto|right; done]|].
      intros [?|(<- & _ & _ & <-)]; tauto.
    + split; [tauto|]. intros [?|(<- & _ & Hc & <-)]; done.
Qed.

Lemma comprehensive_scan_elem_of summary_rows ingame_rows uid c :
  let users_summary_roles := analyze_day8_completion.build_targets summary_rows in
  let found :=
    foldl (analyze_comprehensive_discrepancies.scan_row users_summary_roles)
          (analyze_comprehensive_discrepancies.mkFound ∅ ∅ ∅) ingame_rows in
  (c ∈ get_set (analyze_comprehensive_discrepancies.found_mars_for_athens_na found) uid
   ↔ uid ∈ analyze_comprehensive_discrepancies.users_in
             analyze_comprehensive_discrepancies.athens_na_only
             users_summary_roles
     ∧ c = "Mars Colony"
     ∧ ∃ row, row ∈ ingame_rows ∧ col_userId row = uid
              ∧ PyStr.contains "Mars Colony" (col_role row) = true)
  ∧ (c ∈ get_set (analyze_comprehensive_discrepancies.found_na_for_athens_mars found) uid
     ↔ uid ∈ analyze_comprehensive_discrepancies.users_in
               analyze_comprehensive_discrepancies.athens_mars_only
               users_summary_roles
       ∧ c = "North America"
       ∧ ∃ row, row ∈ ingame_rows ∧ col_userId row = uid
                ∧ PyStr.contains "North America" (col_role row) = true)
  ∧ (c ∈ get_set (analyze_comprehensive_discrepancies.found_roles_for_no_athens found) uid
     ↔ uid ∈ analyze_comprehensive_discrepancies.users_in
               analyze_comprehensive_discrepancies.no_athens
               users_summary_roles
       ∧ c ∈ roles_seen ingame_rows uid).
Proof.
  intros users_summary_roles. simpl.
  induction ingame_rows as [|row rows (IH1 & IH2 & IH3)] using rev_ind.
  - simpl. unfold get_set. rewrite lookup_empty. simpl.
    split; [|split]; (split; [set_solver|]).
    + intros (_ & _ & row & Hin & _). by apply elem_of_nil in Hin.
    + intros (_ & _ & row & Hin & _). by apply elem_of_nil in Hin.
    + intros (_ & (_ & row & Hin & _)%elem_of_roles_seen).
      by apply elem_of_nil in Hin.
  - rewrite foldl_app. simpl.
    destruct (comprehensive_scan_row_elem_of summary_rows
                (foldl (analyze_comprehensive_discrepancies.scan_row
                          users_summary_roles)
                       (analyze_comprehensive_discrepancies.mkFound ∅ ∅ ∅) rows)
                row uid c) as (H1 & H2 & H3).
    fold users_summary_roles in H1, H2, H3.
    rewrite H1, H2, H3, IH1, IH2, IH3. clear H1 H2 H3 IH1 IH2 IH3.
    split; [|split].
    + split.
      * intros [(Hg & Hc & row' & Hin & Hr)|(Hu & Hg & Hc & Hr)].
        -- split; [done|]. split; [done|]. exists row'.
           split; [apply elem_of_app; by left|done].
        -- split; [done|]. split; [done|]. exists row.
           split; [apply elem_of_app; right; by apply list_elem_of_singleton|done].
      * intros (Hg & Hc & row' & Hin & Hu & Hr).
        apply elem_of_app in Hin as [Hin| ->%list_elem_of_singleton].
        -- left. eauto 10.
        -- right. done.
    + split.
      * intros [(Hg & Hc & row' & Hin & Hr)|(Hu & Hg & Hc & Hr)].
        -- split; [done|]. split; [done|]. exists row'.
           split; [apply elem_of_app; by left|done].
        -- split; [done|]. split; [done|]. exists row.
           split; [apply elem_of_app; right; by apply list_elem_of_singleton|done].
      * intros (Hg & Hc & row' & Hin & Hu & Hr).
        apply elem_of_app in Hin as [Hin| ->%list_elem_of_singleton].
        -- left. eauto 10.
        -- right. done.
    + rewrite !elem_of_roles_seen. split.
      * intros [(Hg & Hne & row' & Hin & Hr)|(Hu & Hg & Hne & Hr)].
        -- split; [done|]. split; [done|]. exists row'.
           split; [apply elem_of_app; by left|done].
        -- split; [done|]. split; [done|]. exists row.
           split; [apply elem_of_app; right; by apply list_elem_of_singleton|done].
      * intros (Hg & Hne & row' & Hin & Hu & Hr).
        apply elem_of_app in Hin as [Hin| ->%list_elem_of_singleton].
        -- left. eauto 10.
        -- right. done.
Qed.

(** What analyze_comprehensive_discrepancies finds in the in-game log:
    for a user with Athens and North America only, Mars Colony exactly
    when some in-game row of the user contains that marker; for a user
    with Athens and Mars Colony only, North America likewise; for a
    user without Athens, the categories of the user's in-game labels as
    the classifier gives them, "Other" left out.  Users outside the
    three groups get nothing. *)
Theorem comprehensive_findings (summary_rows ingame_rows : list LogRow)
    (uid c : string) :
  (c ∈ get_set (analyze_comprehensive_discrepancies.found_mars_for_athens_na
                  (analyze_comprehensive_discrepancies.analyze_comprehensive_discrepancies
                     summary_rows ingame_rows)) uid
   ↔ analyze_comprehensive_discrepancies.build_users_summary_roles
       summary_rows !! uid = Some {[ "Athens"; "North America" ]}
     ∧ c = "Mars Colony"
     ∧ ∃ row, row ∈ ingame_rows ∧ col_userId row = uid
              ∧ PyStr.contains "Mars Colony" (col_role row) = true)
  ∧ (c ∈ get_set (analyze_comprehensive_discrepancies.found_na_for_athens_mars
                    (analyze_comprehensive_discrepancies.analyze_comprehensive_discrepancies
                       summary_rows ingame_rows)) uid
     ↔ analyze_comprehensive_discrepancies.build_users_summary_roles
         summary_rows !! uid = Some {[ "Athens"; "Mars Colony" ]}
       ∧ c = "North America"
       ∧ ∃ row, row ∈ ingame_rows ∧ col_userId row = uid
                ∧ PyStr.contains "North America" (col_role row) = true)
  ∧ (c ∈ get_set (analyze_comprehensive_discrepancies.found_roles_for_no_athens
                    (analyze_comprehensive_discrepancies.analyze_comprehensive_discrepancies
                       summary_rows ingame_rows)) uid
     ↔ (∃ roles,
           analyze_comprehensive_discrepancies.build_users_summary_roles
             summary_rows !! uid = Some roles
           ∧ "Athens" ∉ roles)
       ∧ c ≠ "Other"
       ∧ ∃ row, row ∈ ingame_rows ∧ col_userId row = uid
                ∧ get_role_category (col_role row) = c).
Proof.
  unfold analyze_comprehensive_discrepancies.analyze_comprehensive_discrepancies.
  change (analyze_comprehensive_discrepancies.build_users_summary_roles
            summary_rows)
    with (analyze_day8_completion.build_targets summary_rows).
  destruct (comprehensive_scan_elem_of summary_rows ingame_rows uid c)
    as (H1 & H2 & H3).
  simpl in H1, H2, H3. rewrite H1, H2, H3. clear H1 H2 H3.
  rewrite !elem_of_users_in, elem_of_roles_seen.
  split; [|split].
  - rewrite (lookup_targets_iff _
               (λ roles, roles = {[ "Athens"; "North America" ]}))
      by (intros roles Hsub Hne; apply (group_tests roles Hsub Hne)).
    naive_solver.
  - rewrite (lookup_targets_iff _
               (λ roles, roles = {[ "Athens"; "Mars Colony" ]}))
      by (intros roles Hsub Hne; apply (group_tests roles Hsub Hne)).
    naive_solver.
  - rewrite (lookup_targets_iff _ (λ roles, "Athens" ∉ roles))
      by (intros roles Hsub Hne; apply (group_tests roles Hsub Hne)).
    done.
Qed.

(** Evidence of day 8 is evidence without day filter: when
    analyze_day8_completion verifies a pair, then
    analyze_comprehensive_discrepancies, run on the same two logs, finds
    the role for the user, in the dict of the user's group, provided
    the user has Athens in the summary profile or the role is Athens. *)
Theorem day8_verified_is_found (summary_rows ingame_rows : list LogRow)
    (uid c : string) :
  analyze_day8_completion.is_verified
    (analyze_day8_completion.analyze_day8_completion
       summary_rows ingame_rows).2 uid c = true →
  (analyze_day8_completion.build_targets summary_rows !! uid
     = Some {[ "Athens"; "North America" ]} →
   c ∈ get_set (analyze_comprehensive_discrepancies.found_mars_for_athens_na
                  (analyze_comprehensive_discrepancies.analyze_comprehensive_discrepancies
                     summary_rows ingame_rows)) uid)
  ∧ (analyze_day8_completion.build_targets summary_rows !! uid
       = Some {[ "Athens"; "Mars Colony" ]} →
     c ∈ get_set (analyze_comprehensive_discrepancies.found_na_for_athens_mars
                    (analyze_comprehensive_discrepancies.analyze_comprehensive_discrepancies
                       summary_rows ingame_rows)) uid)
  ∧ (c = "Athens" →
     c ∈ get_set (analyze_comprehensive_discrepancies.found_roles_for_no_athens
                    (analyze_comprehensive_discrepancies.analyze_comprehensive_discrepancies
                       summary_rows ingame_rows)) uid).
Proof.
  unfold analyze_day8_completion.analyze_day8_completion,
    analyze_day8_completion.scan. simpl.
  rewrite is_verified_foldl, is_verified_empty.
  intros [?|(row & Hin & Hu & Hd & missing & Hmiss & Hm)]; [done|].
  apply matched_target_elem_of in Hm as [Hc Hlabel].
  apply users_to_check_spec in Hmiss as (roles & Hr & Hne & ->).
  unfold analyze_comprehensive_discrepancies.analyze_comprehensive_discrepancies.
  change (analyze_comprehensive_discrepancies.build_users_summary_roles
            summary_rows)
    with (analyze_day8_completion.build_targets summary_rows).
  destruct (comprehensive_scan_elem_of summary_rows ingame_rows uid c)
    as (H1 & H2 & H3).
  simpl in H1, H2, H3. rewrite H1, H2, H3. clear H1 H2 H3.
  rewrite !elem_of_users_in.
  destruct (day8_targets_subseteq _ _ _ Hr) as [Hsub Hnonempty].
  split; [|split].
  - intros Hr'. rewrite Hr in Hr'. injection Hr' as ->.
    assert (c = "Mars Colony") as -> by (unfold three_roles in Hc; set_solver).
    split; [|split; [done|eauto]].
    eexists. split; [exact Hr|]. by vm_compute.
  - intros Hr'. rewrite Hr in Hr'. injection Hr' as ->.
    assert (c = "North America") as -> by (unfold three_roles in Hc; set_solver).
    split; [|split; [done|eauto]].
    eexists. split; [exact Hr|]. by vm_compute.
  - intros ->. split.
    + exists roles. split; [done|].
      apply (group_tests roles Hsub Hnonempty). set_solver.
    + apply elem_of_roles_seen. split; [done|].
      exists row. split; [done|]. split; [done|].
      unfold get_role_category. by rewrite Hlabel.
Qed.

(** A user with Athens and North America whose Mars Colony row of day
    "8" is verified and found. *)
Lemma day8_verified_is_found_witness :
  analyze_day8_completion.is_verified
    (analyze_day8_completion.analyze_day8_completion
       [mkRow "u1" "Athens" "" "" []; mkRow "u1" "North America" "" "" []]
       [mkRow "u1" "Mars Colony" "8" "" []]).2 "u1" "Mars Colony" = true
  ∧ "Mars Colony"
      ∈ get_set (analyze_comprehensive_discrepancies.found_mars_for_athens_na
                   (analyze_comprehensive_discrepancies.analyze_comprehensive_discrepancies
                      [mkRow "u1" "Athens" "" "" [];
                       mkRow "u1" "North America" "" "" []]
                      [mkRow "u1" "Mars Colony" "8" "" []])) "u1".
Proof.
  assert (analyze_day8_completion.is_verified
    (analyze_day8_completion.analyze_day8_completion
       [mkRow "u1" "Athens" "" "" []; mkRow "u1" "North America" "" "" []]
       [mkRow "u1" "Mars Colony" "8" "" []]).2 "u1" "Mars Colony" = true) as Hv
    by (vm_compute; reflexivity).
  split; [exact Hv|].
  apply (proj1 (day8_verified_is_found _ _ _ _ Hv)).
  compute_done.
Defined.
